(** * pysnow query builder: a shallow embedding of [pysnow/query_builder.py]

    The class [QueryBuilder] accumulates the fragments of a ServiceNow encoded
    query in [self._query] and validates every call against three attributes
    ([current_field], [c_oper], [l_oper]).  The methods mutate [self] and
    either return it or raise; they are embedded here as computations in a
    state-and-exception monad over the record of the four attributes, in which
    a raised exception keeps the state reached so far (as a [try]/[except]
    around a call of the Python method would observe it). *)

From Stdlib Require Import String Ascii List ZArith Lia Bool Arith.
From Stdlib Require Import DecimalString DecimalZ DecimalNat.
Import ListNotations.

Local Open Scope list_scope.
Local Open Scope string_scope.

(* ===================================================================== *)
(** ** Python values handed to the builder *)
(* ===================================================================== *)

(** A [datetime.datetime] without microseconds and time zone. *)
Record datetime := mk_datetime {
  year : N; month : N; day : N;
  hour : N; minute : N; second : N
}.

(** The operands a caller can pass.  [VObject cls shown] stands for an
    instance of any other class [cls] (a float, a dict, ...), whose [str()]
    and [repr()] are [shown]; such an object has no [strftime] attribute and is
    an instance of none of [str], [int], [list]. *)
#[warnings="-register-all"]
Inductive value : Type :=
| VNone
| VBool (b : bool)
| VInt (n : Z)
| VStr (s : string)
| VList (items : list value)
| VDatetime (d : datetime)
| VObject (cls shown : string).

(** The classes of these values ([type(x)]). *)
Inductive pytype : Type :=
| class_NoneType
| class_bool
| class_int
| class_str
| class_list
| class_datetime
| class_other (cls : string).

Definition type_of (x : value) : pytype :=
  match x with
  | VNone => class_NoneType
  | VBool _ => class_bool
  | VInt _ => class_int
  | VStr _ => class_str
  | VList _ => class_list
  | VDatetime _ => class_datetime
  | VObject cls _ => class_other cls
  end.

Definition pytype_eqb (a b : pytype) : bool :=
  match a, b with
  | class_NoneType, class_NoneType => true
  | class_bool, class_bool => true
  | class_int, class_int => true
  | class_str, class_str => true
  | class_list, class_list => true
  | class_datetime, class_datetime => true
  | class_other c, class_other d => String.eqb c d
  | _, _ => false
  end.

(** [type(operand) in types] *)
Definition type_in (x : value) (types : list pytype) : bool :=
  existsb (pytype_eqb (type_of x)) types.

(** [tp_name] of a class and the text [str(cls)] = [repr(cls)]. *)
Definition tp_name (t : pytype) : string :=
  match t with
  | class_NoneType => "NoneType"
  | class_bool => "bool"
  | class_int => "int"
  | class_str => "str"
  | class_list => "list"
  | class_datetime => "datetime.datetime"
  | class_other cls => cls
  end.

Definition str_type (t : pytype) : string := "<class '" ++ tp_name t ++ "'>".

(** [isinstance(x, int)]: [bool] is a subclass of [int]; the integer a
    [%d] conversion prints. *)
Definition as_int (x : value) : option Z :=
  match x with
  | VInt n => Some n
  | VBool true => Some 1%Z
  | VBool false => Some 0%Z
  | _ => None
  end.

(* --------------------------------------------------------------------- *)
(** *** Text conversions: [str], [repr], [%d], [strftime] *)
(* --------------------------------------------------------------------- *)

Definition str_Z (n : Z) : string := NilEmpty.string_of_int (Z.to_int n).
Definition str_nat (n : nat) : string := NilEmpty.string_of_uint (Nat.to_uint n).
Definition str_N (n : N) : string := NilEmpty.string_of_uint (N.to_uint n).

Fixpoint zeros (k : nat) : string :=
  match k with
  | O => EmptyString
  | S k' => String "0" (zeros k')
  end.

(** [%0wd]: decimal, left-padded with zeros to at least [w] digits. *)
Definition pad0 (w : nat) (n : N) : string :=
  let s := str_N n in zeros (w - String.length s) ++ s.

(** [d.isoformat(' ')], which is [str(d)]: the year always has four digits. *)
Definition isoformat (d : datetime) : string :=
  pad0 4 (year d) ++ "-" ++ pad0 2 (month d) ++ "-" ++ pad0 2 (day d) ++ " " ++
  pad0 2 (hour d) ++ ":" ++ pad0 2 (minute d) ++ ":" ++ pad0 2 (second d).

(** [d.strftime('%Y-%m-%d %H:%M:%S')], as the C library prints it under
    Linux: [%Y] is the year in decimal with no padding, so a year below 1000
    has fewer than four digits; the other fields have two digits. *)
Definition strftime (d : datetime) : string :=
  str_N (year d) ++ "-" ++ pad0 2 (month d) ++ "-" ++ pad0 2 (day d) ++ " " ++
  pad0 2 (hour d) ++ ":" ++ pad0 2 (minute d) ++ ":" ++ pad0 2 (second d).

Definition dquote : ascii := "034"%char.
Definition squote : ascii := "'"%char.
Definition backslash : ascii := "\"%char.

Fixpoint occurs (c : ascii) (s : string) : bool :=
  match s with
  | EmptyString => false
  | String a s' => Ascii.eqb a c || occurs c s'
  end.

Definition hex_digit (n : nat) : ascii :=
  nth n (list_ascii_of_string "0123456789abcdef") "0"%char.

(** [str.isprintable] on the code points below 256. *)
Definition printable (c : ascii) : bool :=
  let n := nat_of_ascii c in
  (((32 <=? n) && (n <? 127)) || ((161 <=? n) && negb (n =? 173)))%nat.

Definition escape_char (quote c : ascii) : string :=
  if Ascii.eqb c quote || Ascii.eqb c backslash then String backslash (String c EmptyString)
  else if Ascii.eqb c "009"%char then "\t"
  else if Ascii.eqb c "010"%char then "\n"
  else if Ascii.eqb c "013"%char then "\r"
  else if printable c then String c EmptyString
  else "\x" ++ String (hex_digit (nat_of_ascii c / 16))
                 (String (hex_digit (nat_of_ascii c mod 16)) EmptyString).

Fixpoint escape (quote : ascii) (s : string) : string :=
  match s with
  | EmptyString => EmptyString
  | String c s' => escape_char quote c ++ escape quote s'
  end.

(** [repr] of a [str]: single quotes, unless the text has a single quote and
    no double quote. *)
Definition repr_str (s : string) : string :=
  let quote := if occurs squote s && negb (occurs dquote s) then dquote else squote in
  String quote (escape quote s ++ String quote EmptyString).

(** [repr] of a [datetime]: trailing zero seconds are left out. *)
Definition repr_datetime (d : datetime) : string :=
  "datetime.datetime(" ++ str_N (year d) ++ ", " ++ str_N (month d) ++ ", " ++
  str_N (day d) ++ ", " ++ str_N (hour d) ++ ", " ++ str_N (minute d) ++
  (if (second d =? 0)%N then EmptyString else ", " ++ str_N (second d)) ++ ")".

Fixpoint repr (x : value) : string :=
  match x with
  | VNone => "None"
  | VBool true => "True"
  | VBool false => "False"
  | VInt n => str_Z n
  | VStr s => repr_str s
  | VList items => "[" ++ String.concat ", " (map repr items) ++ "]"
  | VDatetime d => repr_datetime d
  | VObject _ shown => shown
  end.

(** [str(x)], which is also what a [%s] conversion and [format] print. *)
Definition str (x : value) : string :=
  match x with
  | VStr s => s
  | VDatetime d => isoformat d
  | _ => repr x
  end.

(** [str(types)] for a list of classes. *)
Definition str_types (types : list pytype) : string :=
  "[" ++ String.concat ", " (map str_type types) ++ "]".

(* ===================================================================== *)
(** ** Exceptions *)
(* ===================================================================== *)

(** The five classes imported from [pysnow.exceptions], and the built-in
    [TypeError] that [str.join] raises on an item that is not a [str]. *)
Inductive exn_class : Type :=
| QueryEmpty
| QueryExpressionError
| QueryMissingField
| QueryMultipleExpressions
| QueryTypeError
| TypeError.

Record exn := Exception { exn_cls : exn_class; exn_msg : string }.

Inductive result (A : Type) : Type :=
| Return (a : A)
| Raise (e : exn).
Arguments Return {A} a.
Arguments Raise {A} e.

(** The class of the exception a call ended with, if it raised. *)
Definition raised {A} (r : result A) : option exn_class :=
  match r with
  | Return _ => None
  | Raise e => Some (exn_cls e)
  end.

(** [sep.join(items)]: every item must be a [str]; the first one that is not
    raises [TypeError]. *)
Fixpoint str_items (i : nat) (items : list value) : result (list string) :=
  match items with
  | [] => Return []
  | VStr s :: rest =>
      match str_items (S i) rest with
      | Return l => Return (s :: l)
      | Raise e => Raise e
      end
  | x :: _ =>
      Raise (Exception TypeError
               ("sequence item " ++ str_nat i ++ ": expected str instance, " ++
                tp_name (type_of x) ++ " found"))
  end.

Definition join (sep : string) (items : list value) : result string :=
  match str_items 0 items with
  | Return l => Return (String.concat sep l)
  | Raise e => Raise e
  end.

(* ===================================================================== *)
(** ** The builder and its monad *)
(* ===================================================================== *)

(** The attributes of a [QueryBuilder] instance.  [current_field] holds the
    [str] given to [field] or [None]; [c_oper] and [l_oper] hold the name of
    the method that appended the last condition, resp. logical operator. *)
Record QueryBuilder := mk_QueryBuilder {
  _query : list string;
  current_field : option string;
  c_oper : option string;
  l_oper : option string
}.

(** [QueryBuilder.__init__] *)
Definition __init__ : QueryBuilder :=
  {| _query := []; current_field := None; c_oper := None; l_oper := None |}.

(** A method body: from the attributes before the call to the attributes
    after it and either the returned value or the exception raised. *)
Definition M (A : Type) : Type := QueryBuilder -> QueryBuilder * result A.

Definition ret {A} (a : A) : M A := fun self => (self, Return a).

Definition raise {A} (c : exn_class) (msg : string) : M A :=
  fun self => (self, Raise (Exception c msg)).

Definition bind {A B} (m : M A) (k : A -> M B) : M B :=
  fun self =>
    match m self with
    | (self', Return a) => k a self'
    | (self', Raise e) => (self', Raise e)
    end.

Definition get : M QueryBuilder := fun self => (self, Return self).

Definition modify (f : QueryBuilder -> QueryBuilder) : M unit :=
  fun self => (f self, Return tt).

(** A pure computation that may raise, run inside a method. *)
Definition lift {A} (r : result A) : M A := fun self => (self, r).

Declare Scope py_scope.
Delimit Scope py_scope with py.
Notation "x <- m ;; k" := (bind m (fun x => k))
  (at level 61, m at next level, right associativity) : py_scope.
Notation "m ;; k" := (bind m (fun _ => k))
  (at level 61, right associativity) : py_scope.
Local Open Scope py_scope.

(** Attribute assignments. *)
Definition set_current_field (v : option string) (self : QueryBuilder) : QueryBuilder :=
  {| _query := _query self; current_field := v; c_oper := c_oper self; l_oper := l_oper self |}.
Definition set_c_oper (v : option string) (self : QueryBuilder) : QueryBuilder :=
  {| _query := _query self; current_field := current_field self; c_oper := v; l_oper := l_oper self |}.
Definition set_l_oper (v : option string) (self : QueryBuilder) : QueryBuilder :=
  {| _query := _query self; current_field := current_field self; c_oper := c_oper self; l_oper := v |}.
(** [self._query.append(token)] *)
Definition query_append (token : string) (self : QueryBuilder) : QueryBuilder :=
  {| _query := _query self ++ [token]; current_field := current_field self;
     c_oper := c_oper self; l_oper := l_oper self |}.

(** Truth value of an attribute holding [None] or a [str]: [None] and the
    empty text are false. *)
Definition truthy (a : option string) : bool :=
  match a with
  | None => false
  | Some EmptyString => false
  | Some (String _ _) => true
  end.

(** What [%s] and [format] print for such an attribute. *)
Definition str_attr (a : option string) : string :=
  match a with
  | None => "None"
  | Some s => s
  end.

(* ===================================================================== *)
(** ** The methods of [QueryBuilder] *)
(* ===================================================================== *)

(** [_add_condition].  [caller] is the name that
    [inspect.currentframe().f_back.f_code.co_name] yields: the method that
    called [_add_condition].  The [%s] conversion of an [int] operand is taken
    as total, as it is for every [int] within the interpreter's limit on the
    length of a converted integer ([int_max_str_digits] below, which
    [sys.set_int_max_str_digits(0)] lifts); beyond that limit the
    formatting itself raises [ValueError], after [c_oper] was assigned, and
    that path is no part of this model. *)
Definition _add_condition (caller operator : string) (operand : value)
    (types : list pytype) : M unit :=
  self <- get ;;
  if negb (truthy (current_field self)) then
    raise QueryMissingField "Conditions requires a field()"
  else if negb (type_in operand types) then
    raise QueryTypeError
      ("Invalid type passed to " ++ caller ++ "() , expected: " ++ str_types types)
  else if truthy (c_oper self) then
    raise QueryMultipleExpressions "Expected logical operator after expression"
  else
    modify (set_c_oper (Some caller)) ;;
    self <- get ;;
    modify (query_append (str_attr (current_field self) ++ operator ++ str operand)) ;;
    ret tt.

(** [_add_logical_operator], with the caller's name as above. *)
Definition _add_logical_operator (caller operator : string) : M unit :=
  self <- get ;;
  if negb (truthy (c_oper self)) then
    raise QueryExpressionError "Logical operators must be preceded by an expression"
  else
    modify (set_current_field None) ;;
    modify (set_c_oper None) ;;
    modify (set_l_oper (Some caller)) ;;
    modify (query_append operator) ;;
    ret tt.

Definition AND : M unit := _add_logical_operator "AND" "^".
Definition OR : M unit := _add_logical_operator "OR" "^OR".
Definition NQ : M unit := _add_logical_operator "NQ" "^NQ".

Definition field (field : string) : M unit :=
  modify (set_current_field (Some field)) ;;
  ret tt.

Definition order_descending : M unit :=
  self <- get ;;
  _add_condition "order_descending" ("ORDERBYDESC" ++ str_attr (current_field self))
    (VStr EmptyString) [class_str].

Definition order_ascending : M unit :=
  self <- get ;;
  _add_condition "order_ascending" ("ORDERBY" ++ str_attr (current_field self))
    (VStr EmptyString) [class_str].

Definition starts_with (starts_with : value) : M unit :=
  _add_condition "starts_with" "STARTSWITH" starts_with [class_str].

Definition ends_with (ends_with : value) : M unit :=
  _add_condition "ends_with" "ENDSWITH" ends_with [class_str].

Definition contains (contains : value) : M unit :=
  _add_condition "contains" "LIKE" contains [class_str].

Definition not_contains (not_contains : value) : M unit :=
  _add_condition "not_contains" "NOTLIKE" not_contains [class_str].

Definition is_empty : M unit :=
  _add_condition "is_empty" "ISEMPTY" (VStr EmptyString) [class_str; class_int].

Definition equals (data : value) : M unit :=
  match data with
  | VStr _ => _add_condition "equals" "=" data [class_int; class_str]
  | VList items =>
      _add_condition "equals" "IN" (VStr (String.concat "," (map str items))) [class_str]
  | _ =>
      raise QueryTypeError
        ("Expected value of type `str` or `list`, not " ++ str_type (type_of data))
  end.

Definition not_equals (data : value) : M unit :=
  match data with
  | VStr _ => _add_condition "not_equals" "!=" data [class_int; class_str]
  | VList items =>
      joined <- lift (join "," items) ;;
      _add_condition "not_equals" "NOT IN" (VStr joined) [class_str]
  | _ =>
      raise QueryTypeError
        ("Expected value of type `str` or `list`, not " ++ str_type (type_of data))
  end.

Definition greater_than (greater_than : value) : M unit :=
  match greater_than with
  | VDatetime d =>
      _add_condition "greater_than" ">" (VStr (strftime d)) [class_int; class_str]
  | VStr _ =>
      raise QueryTypeError
        ("Expected value of type `int` or instance of `datetime`, not " ++
         str_type (type_of greater_than))
  | _ => _add_condition "greater_than" ">" greater_than [class_int; class_str]
  end.

Definition less_than (less_than : value) : M unit :=
  match less_than with
  | VDatetime d =>
      _add_condition "less_than" "<" (VStr (strftime d)) [class_int; class_str]
  | VStr _ =>
      raise QueryTypeError
        ("Expected value of type `int` or instance of `datetime`, not " ++
         str_type (type_of less_than))
  | _ => _add_condition "less_than" "<" less_than [class_int; class_str]
  end.

(** The text [javascript:gs.dateGenerate("<t>")]. *)
Definition dateGenerate (t : string) : string :=
  "javascript:gs.dateGenerate(" ++ String dquote (t ++ String dquote ")").

Definition between (start end_ : value) : M unit :=
  match start, end_ with
  | VDatetime s, VDatetime e =>
      _add_condition "between" "BETWEEN"
        (VStr (dateGenerate (strftime s) ++ "@" ++ dateGenerate (strftime e))) [class_str]
  | _, _ =>
      match as_int start, as_int end_ with
      | Some s, Some e =>
          _add_condition "between" "BETWEEN" (VStr (str_Z s ++ "@" ++ str_Z e)) [class_str]
      | _, _ =>
          raise QueryTypeError
            ("Expected `start` and `end` of type `int` or instance of `datetime`, not " ++
             str_type (type_of start) ++ " and " ++ str_type (type_of end_))
      end
  end.

(** [__str__] *)
Definition __str__ : M string :=
  self <- get ;;
  if (List.length (_query self) =? 0)%nat then
    raise QueryEmpty "At least one condition is required"
  else
    match current_field self with
    | None => raise QueryMissingField "Logical operator expects a field()"
    | Some _ =>
        match c_oper self with
        | None => raise QueryExpressionError "field() expects an expression"
        | Some _ => ret (String.concat EmptyString (_query self))
        end
    end.

(* ===================================================================== *)
(** ** Calls and chains of calls *)
(* ===================================================================== *)

(** One call of a public method, with its arguments. *)
Inductive call : Type :=
| Call_AND
| Call_OR
| Call_NQ
| Call_field (f : string)
| Call_order_descending
| Call_order_ascending
| Call_starts_with (v : value)
| Call_ends_with (v : value)
| Call_contains (v : value)
| Call_not_contains (v : value)
| Call_is_empty
| Call_equals (v : value)
| Call_not_equals (v : value)
| Call_greater_than (v : value)
| Call_less_than (v : value)
| Call_between (start end_ : value)
| Call_str.

Definition invoke (c : call) : M unit :=
  match c with
  | Call_AND => AND
  | Call_OR => OR
  | Call_NQ => NQ
  | Call_field f => field f
  | Call_order_descending => order_descending
  | Call_order_ascending => order_ascending
  | Call_starts_with v => starts_with v
  | Call_ends_with v => ends_with v
  | Call_contains v => contains v
  | Call_not_contains v => not_contains v
  | Call_is_empty => is_empty
  | Call_equals v => equals v
  | Call_not_equals v => not_equals v
  | Call_greater_than v => greater_than v
  | Call_less_than v => less_than v
  | Call_between s e => between s e
  | Call_str => _ <- __str__ ;; ret tt
  end.

(** The methods that append a condition (those that go through
    [_add_condition]). *)
Definition is_condition (c : call) : bool :=
  match c with
  | Call_order_descending | Call_order_ascending
  | Call_starts_with _ | Call_ends_with _ | Call_contains _ | Call_not_contains _
  | Call_is_empty | Call_equals _ | Call_not_equals _
  | Call_greater_than _ | Call_less_than _ | Call_between _ _ => true
  | _ => false
  end.

(** A fluent chain [b.m1(..).m2(..)...]: the first call that raises ends it. *)
Fixpoint chain (cs : list call) : M unit :=
  match cs with
  | [] => ret tt
  | c :: cs' => invoke c ;; chain cs'
  end.

(** The builder a computation leaves behind, and its outcome. *)
Definition exec {A} (m : M A) (self : QueryBuilder) : QueryBuilder := fst (m self).
Definition eval {A} (m : M A) (self : QueryBuilder) : result A := snd (m self).

(** [str(QueryBuilder().m1(..)...)]: build from a new instance, then serialize. *)
Definition build (cs : list call) : result string :=
  eval (chain cs ;; __str__) __init__.

(** [isinstance(x, str)], [isinstance(x, list)], [isinstance(x, int)] and
    [hasattr(x, 'strftime')] as the methods test them. *)
Definition isinstance_str (x : value) : bool :=
  match x with VStr _ => true | _ => false end.
Definition isinstance_list (x : value) : bool :=
  match x with VList _ => true | _ => false end.
Definition isinstance_int (x : value) : bool :=
  match as_int x with Some _ => true | None => false end.
Definition hasattr_strftime (x : value) : bool :=
  match x with VDatetime _ => true | _ => false end.

(** The messages of the exceptions raised by the shared routines. *)
Definition msg_missing_field : string := "Conditions requires a field()".
Definition msg_multiple : string := "Expected logical operator after expression".
Definition msg_no_expression : string := "Logical operators must be preceded by an expression".

(** The state a successful [_add_condition] leaves. *)
Definition with_condition (caller token : string) (self : QueryBuilder) : QueryBuilder :=
  query_append token (set_c_oper (Some caller) self).

(** The calls that append a logical operator. *)
Definition is_logical_operator (c : call) : bool :=
  match c with
  | Call_AND | Call_OR | Call_NQ => true
  | _ => false
  end.

(** The tokens that [AND], [OR] and [NQ] append. *)
Definition is_logical (token : string) : bool :=
  String.eqb token "^" || String.eqb token "^OR" || String.eqb token "^NQ".

(** The token sequence begins with a logical-operator token. *)
Definition starts_with_logical (q : list string) : bool :=
  match q with
  | [] => false
  | t :: _ => is_logical t
  end.

(** The token sequence has two logical-operator tokens next to each other. *)
Fixpoint adjacent_logical (q : list string) : bool :=
  match q with
  | a :: ((b :: _) as rest) => (is_logical a && is_logical b) || adjacent_logical rest
  | _ => false
  end.

(** Conditions and logical operators take turns, starting with a condition
    when [expect_condition] is set. *)
Fixpoint alternating (expect_condition : bool) (q : list string) : bool :=
  match q with
  | [] => true
  | t :: rest =>
      Bool.eqb (is_logical t) (negb expect_condition) &&
      alternating (negb expect_condition) rest
  end.

(** The builders a program can hold: a new instance, and what any call of a
    public method leaves behind, whether it returned or raised. *)
Inductive reachable : QueryBuilder -> Prop :=
| reachable_init : reachable __init__
| reachable_call (c : call) (self : QueryBuilder) :
    reachable self -> reachable (exec (invoke c) self).

(** The field values [datetime] accepts. *)
Definition valid_datetime (d : datetime) : bool :=
  ((1 <=? year d) && (year d <=? 9999) && (1 <=? month d) && (month d <=? 12) &&
   (1 <=? day d) && (day d <=? 31) && (hour d <? 24) && (minute d <? 60) &&
   (second d <? 60))%N.

(** The decimal digit [n mod 10] as a character. *)
Definition digit (n : N) : ascii := ascii_of_N (48 + n mod 10).

(** The text [YYYY-MM-DD HH:MM:SS] written digit by digit. *)
Definition iso_text (d : datetime) : string :=
  String (digit (year d / 1000)%N) (String (digit (year d / 100)%N) (String (digit (year d / 10)%N)
  (String (digit (year d)) (String "-" (String (digit (month d / 10)%N) (String (digit (month d))
  (String "-" (String (digit (day d / 10)%N) (String (digit (day d)) (String " "
  (String (digit (hour d / 10)%N) (String (digit (hour d)) (String ":"
  (String (digit (minute d / 10)%N) (String (digit (minute d)) (String ":"
  (String (digit (second d / 10)%N) (String (digit (second d)) EmptyString)))))))))))))))))).

(** [P] holds of the [k] numbers from [start] on. *)
Fixpoint all_from (P : N -> bool) (k : nat) (start : N) : bool :=
  match k with
  | O => true
  | S k' => P start && all_from P k' (N.succ start)
  end.

(** A builder in which the field [f] is selected, which is to say that
    [current_field] holds [f] and passes the first check of [_add_condition],
    and in which no condition is pending, so that [c_oper] fails its third
    check. *)
Definition ready (f : string) (self : QueryBuilder) : Prop :=
  current_field self = Some f /\
  truthy (current_field self) = true /\
  truthy (c_oper self) = false.

(** Whether position [i] of a sequence that starts with a condition (when
    [b]) holds a condition. *)
Definition expects (b : bool) (i : nat) : bool := if Nat.even i then b else negb b.

(** What every reachable builder satisfies: conditions and logical operators
    take turns in the token sequence, starting with a condition, and a
    condition is pending exactly when the last token is a condition. *)
Definition well_formed (self : QueryBuilder) : Prop :=
  alternating true (_query self) = true /\
  truthy (c_oper self) = negb (Nat.even (List.length (_query self))).

(** The shape of a condition call: either the method rejects its operand by
    itself, in every state and without touching it, or it hands over to
    [_add_condition] under its own name, with an operator that holds a
    character [mark] foreign to the logical-operator tokens. *)
Definition rejects_operand (c : call) : Prop :=
  exists e, (exn_cls e = QueryTypeError \/ exn_cls e = TypeError) /\
            forall s, invoke c s = (s, Raise e).

Definition hands_over (c : call) : Prop :=
  exists caller operand types mark,
    truthy (Some caller) = true /\ occurs mark "^ORNQ" = false /\
    forall s, exists operator,
      occurs mark operator = true /\
      invoke c s = _add_condition caller operator operand types s.

(** How the three markers of a builder hang together: [c_oper] holds [None]
    or a method name; a pending condition comes with a field assigned; and
    [l_oper] is [None] until the first logical operator is appended, and the
    name of one of the three operator methods from then on. *)
Definition markers_consistent (self : QueryBuilder) : Prop :=
  (c_oper self = None \/ truthy (c_oper self) = true) /\
  (truthy (c_oper self) = true -> current_field self <> None) /\
  (l_oper self = None <-> List.length (_query self) <= 1) /\
  (forall name, l_oper self = Some name -> In name ["AND"; "OR"; "NQ"]).

(** The three operator methods with the token each appends. *)
Definition operator_tokens : list (call * string) :=
  [(Call_AND, "^"); (Call_OR, "^OR"); (Call_NQ, "^NQ")].

(** The dates whose year has four digits. *)
Definition four_digit_year (d : datetime) : bool := (1000 <=? year d)%N.

(** The default of [sys.int_max_str_digits], and the integers whose decimal
    text, the sign apart, has no more digits than that. *)
Definition int_max_str_digits : nat := 4300.
Definition within_str_digits (n : Z) : bool :=
  (String.length (str_Z (Z.abs n)) <=? int_max_str_digits)%nat.

(** The builders that calls which returned have built: a new instance, and
    what a call of a public method that returned leaves behind. *)
Inductive built : QueryBuilder -> Prop :=
| built_init : built __init__
| built_call (c : call) (self : QueryBuilder) :
    built self -> eval (invoke c) self = Return tt -> built (exec (invoke c) self).

(* ===================================================================== *)
(** ** Basic facts about the shared routines *)
(* ===================================================================== *)

Lemma truthy_Some_iff (s : string) : truthy (Some s) = true <-> s <> EmptyString.
Proof.
  destruct s; simpl; split; intro H; try discriminate; try reflexivity.
  contradiction.
Qed.

(** [_add_condition] as a decision list over the three checks. *)
Lemma _add_condition_unfold caller operator operand types self :
  _add_condition caller operator operand types self =
    if negb (truthy (current_field self)) then
      (self, Raise (Exception QueryMissingField msg_missing_field))
    else if negb (type_in operand types) then
      (self, Raise (Exception QueryTypeError
         ("Invalid type passed to " ++ caller ++ "() , expected: " ++ str_types types)))
    else if truthy (c_oper self) then
      (self, Raise (Exception QueryMultipleExpressions msg_multiple))
    else
      (with_condition caller (str_attr (current_field self) ++ operator ++ str operand) self,
       Return tt).
Proof.
  unfold _add_condition, bind, get.
  destruct (truthy (current_field self)); [|reflexivity].
  destruct (type_in operand types); [|reflexivity].
  destruct (truthy (c_oper self)); reflexivity.
Qed.

Lemma _add_condition_ok caller operator operand types self :
  truthy (current_field self) = true ->
  type_in operand types = true ->
  truthy (c_oper self) = false ->
  _add_condition caller operator operand types self =
    (with_condition caller (str_attr (current_field self) ++ operator ++ str operand) self,
     Return tt).
Proof.
  intros Hf Ht Hc. rewrite _add_condition_unfold, Hf, Ht, Hc. reflexivity.
Qed.

Lemma _add_condition_pending caller operator operand types self :
  truthy (current_field self) = true ->
  type_in operand types = true ->
  truthy (c_oper self) = true ->
  _add_condition caller operator operand types self =
    (self, Raise (Exception QueryMultipleExpressions msg_multiple)).
Proof.
  intros Hf Ht Hc. rewrite _add_condition_unfold, Hf, Ht, Hc. reflexivity.
Qed.

(** Whatever [_add_condition] raises, it raises before touching [self]. *)
Lemma _add_condition_raise caller operator operand types self e :
  eval (_add_condition caller operator operand types) self = Raise e ->
  exec (_add_condition caller operator operand types) self = self.
Proof.
  unfold eval, exec. rewrite _add_condition_unfold.
  destruct (truthy (current_field self)); simpl; [|reflexivity].
  destruct (type_in operand types); simpl; [|reflexivity].
  destruct (truthy (c_oper self)); simpl; [reflexivity|discriminate].
Qed.

(** A successful [_add_condition] found a field selected and no condition
    pending, and appended one token. *)
Lemma _add_condition_return caller operator operand types self :
  eval (_add_condition caller operator operand types) self = Return tt ->
  truthy (current_field self) = true /\ type_in operand types = true /\
  truthy (c_oper self) = false /\
  exec (_add_condition caller operator operand types) self =
    with_condition caller (str_attr (current_field self) ++ operator ++ str operand) self.
Proof.
  unfold eval, exec. rewrite _add_condition_unfold.
  destruct (truthy (current_field self)); simpl; [|discriminate].
  destruct (type_in operand types); simpl; [|discriminate].
  destruct (truthy (c_oper self)); simpl; [discriminate|].
  intros _. repeat split.
Qed.

Lemma _add_logical_operator_unfold caller operator self :
  _add_logical_operator caller operator self =
    if truthy (c_oper self) then
      ({| _query := _query self ++ [operator]; current_field := None;
          c_oper := None; l_oper := Some caller |}, Return tt)
    else (self, Raise (Exception QueryExpressionError msg_no_expression)).
Proof.
  unfold _add_logical_operator, bind, get.
  destruct (truthy (c_oper self)); reflexivity.
Qed.

Lemma field_run f self :
  field f self = (set_current_field (Some f) self, Return tt).
Proof. reflexivity. Qed.

Lemma __str___unfold self :
  __str__ self =
    (self,
     match _query self with
     | [] => Raise (Exception QueryEmpty "At least one condition is required")
     | _ :: _ =>
         match current_field self, c_oper self with
         | None, _ => Raise (Exception QueryMissingField "Logical operator expects a field()")
         | Some _, None => Raise (Exception QueryExpressionError "field() expects an expression")
         | Some _, Some _ => Return (String.concat EmptyString (_query self))
         end
     end).
Proof.
  unfold __str__, bind, get.
  destruct (_query self); simpl; [reflexivity|].
  destruct (current_field self); [|reflexivity].
  destruct (c_oper self); reflexivity.
Qed.

(* ===================================================================== *)
(** ** [equals] after [field] *)
(* ===================================================================== *)

Lemma bind_unfold {A B} (m : M A) (k : A -> M B) self :
  bind m k self =
    match m self with
    | (self', Return a) => k a self'
    | (self', Raise e) => (self', Raise e)
    end.
Proof. reflexivity. Qed.

Lemma field_then {A} f (m : M A) self :
  (field f ;; m) self = m (set_current_field (Some f) self).
Proof. reflexivity. Qed.

(** C1, as amended: for every non-empty field name [f], in a builder with no
    condition pending, [field(f)] followed by [equals] with a text operand [v]
    appends the fragment [f=v], and on a new builder serialization then yields
    exactly [f=v]; with a list operand it appends [fIN] followed by the
    comma-joined [str()] of the items; with an operand that is neither a [str]
    nor a [list] it raises [QueryTypeError] and appends nothing. *)
Theorem equals_after_field (f v : string) (items : list value) (other : value)
    (self : QueryBuilder)
    (Hf : f <> EmptyString)
    (Hc : truthy (c_oper self) = false)
    (Hstr : isinstance_str other = false)
    (Hlist : isinstance_list other = false) :
  (field f ;; equals (VStr v)) self =
    (with_condition "equals" (f ++ "=" ++ v) (set_current_field (Some f) self), Return tt)
  /\ build [Call_field f; Call_equals (VStr v)] = Return (f ++ "=" ++ v)
  /\ (field f ;; equals (VList items)) self =
       (with_condition "equals" (f ++ "IN" ++ String.concat "," (map str items))
          (set_current_field (Some f) self), Return tt)
  /\ build [Call_field f; Call_equals (VList items)] =
       Return (f ++ "IN" ++ String.concat "," (map str items))
  /\ raised (eval (field f ;; equals other) self) = Some QueryTypeError
  /\ _query (exec (field f ;; equals other) self) = _query self.
Proof.
  apply truthy_Some_iff in Hf.
  assert (Hrun : forall operator operand types (s : QueryBuilder),
             truthy (c_oper s) = false -> type_in operand types = true ->
             _add_condition "equals" operator operand types (set_current_field (Some f) s) =
               (with_condition "equals" (f ++ operator ++ str operand)
                  (set_current_field (Some f) s), Return tt)).
  { intros operator operand types s Hs Ht. now apply _add_condition_ok. }
  assert (Hbuild : forall operator operand types,
             type_in operand types = true ->
             eval ((field f ;; _add_condition "equals" operator operand types ;; ret tt) ;; __str__)
               __init__ = Return (f ++ operator ++ str operand)).
  { intros operator operand types Ht. unfold eval.
    rewrite bind_unfold, bind_unfold, field_run, bind_unfold, Hrun by (assumption || reflexivity).
    unfold ret. rewrite __str___unfold. reflexivity. }
  repeat split.
  - rewrite field_then. simpl equals. now apply Hrun.
  - apply (Hbuild "=" (VStr v)). reflexivity.
  - rewrite field_then. simpl equals. now apply Hrun.
  - apply (Hbuild "IN" (VStr (String.concat "," (map str items)))). reflexivity.
  - destruct other; try discriminate; reflexivity.
  - destruct other; try discriminate; reflexivity.
Qed.

(** A concrete instance for C1: [priority], ["1"], the list [[1, "b"]],
    the integer 5 as the operand of another kind, a new builder. *)
Lemma equals_after_field_witness :
  ("priority" <> EmptyString /\ truthy (c_oper __init__) = false
   /\ isinstance_str (VInt 5) = false /\ isinstance_list (VInt 5) = false)
  /\ build [Call_field "priority"; Call_equals (VStr "1")] = Return "priority=1"
  /\ build [Call_field "priority"; Call_equals (VList [VInt 1; VStr "b"])] =
       Return "priorityIN1,b"
  /\ raised (eval (field "priority" ;; equals (VInt 5)) __init__) = Some QueryTypeError.
Proof.
  split; [split; [discriminate | repeat split]|].
  destruct (equals_after_field "priority" "1" [VInt 1; VStr "b"] (VInt 5) __init__)
    as (_ & H1 & _ & H2 & H3 & _);
    [discriminate | reflexivity | reflexivity | reflexivity |].
  exact (conj H1 (conj H2 H3)).
Defined.

(** C1 as stated fails for the empty field name: [field('')] leaves a field
    that [_add_condition] takes as not selected, so [equals] raises
    [QueryMissingField], nothing is appended and serialization does not yield
    [=v]. *)
Lemma equals_after_empty_field_name :
  build [Call_field EmptyString; Call_equals (VStr "1")] =
    Raise (Exception QueryMissingField "Conditions requires a field()")
  /\ build [Call_field EmptyString; Call_equals (VStr "1")] <> Return "=1"
  /\ _query (exec (chain [Call_field EmptyString; Call_equals (VStr "1")]) __init__) = [].
Proof.
  repeat split. discriminate.
Qed.

(* ===================================================================== *)
(** ** Every condition method ends in [_add_condition] *)
(* ===================================================================== *)

Lemma occurs_app c a b : occurs c (a ++ b) = occurs c a || occurs c b.
Proof.
  induction a as [|x a IH]; simpl; [reflexivity|].
  rewrite IH. now rewrite orb_assoc.
Qed.

(** A token holding a character that no logical-operator token has is not
    one of them. *)
Lemma not_logical_by_char c token :
  occurs c token = true -> occurs c "^ORNQ" = false -> is_logical token = false.
Proof.
  intros Hin Hout. unfold is_logical.
  destruct (String.eqb_spec token "^") as [->|_];
    [|destruct (String.eqb_spec token "^OR") as [->|_];
      [|destruct (String.eqb_spec token "^NQ") as [->|_]; [|reflexivity]]];
    exfalso; destruct c as [[] [] [] [] [] [] [] []];
    cbv in Hin, Hout; discriminate.
Qed.

Ltac hand_over caller operand types mark operator :=
  right; unfold hands_over; exists caller, operand, types, mark;
  split; [reflexivity|]; split; [reflexivity|];
  intro s; exists operator; split; [simpl; rewrite ?occurs_app; reflexivity | reflexivity].

Ltac reject_operand :=
  left; unfold rejects_operand; eexists; split; [|intro s; reflexivity]; left; reflexivity.

Lemma condition_call_cases (c : call) :
  is_condition c = true -> rejects_operand c \/ hands_over c.
Proof.
  destruct c as [ | | | f | | | v | v | v | v | | v | v | v | v | a b | ];
    intro H; try discriminate H; clear H.
  - right. unfold hands_over. exists "order_descending", (VStr EmptyString), [class_str], "D"%char.
    split; [reflexivity|]. split; [reflexivity|].
    intro s. exists ("ORDERBYDESC" ++ str_attr (current_field s)).
    split; reflexivity.
  - right. unfold hands_over. exists "order_ascending", (VStr EmptyString), [class_str], "D"%char.
    split; [reflexivity|]. split; [reflexivity|].
    intro s. exists ("ORDERBY" ++ str_attr (current_field s)).
    split; reflexivity.
  - hand_over "starts_with" v [class_str] "S"%char "STARTSWITH".
  - hand_over "ends_with" v [class_str] "E"%char "ENDSWITH".
  - hand_over "contains" v [class_str] "L"%char "LIKE".
  - hand_over "not_contains" v [class_str] "T"%char "NOTLIKE".
  - hand_over "is_empty" (VStr EmptyString) [class_str; class_int] "I"%char "ISEMPTY".
  - destruct v as [ | b | n | t | items | d | cls shown ]; try reject_operand.
    + hand_over "equals" (VStr t) [class_int; class_str] "="%char "=".
    + hand_over "equals" (VStr (String.concat "," (map str items))) [class_str] "I"%char "IN".
  - destruct v as [ | b | n | t | items | d | cls shown ]; try reject_operand.
    + hand_over "not_equals" (VStr t) [class_int; class_str] "!"%char "!=".
    + assert (Hinv : forall s, invoke (Call_not_equals (VList items)) s =
                (joined <- lift (join "," items) ;;
                 _add_condition "not_equals" "NOT IN" (VStr joined) [class_str]) s)
        by reflexivity.
      unfold join, lift in Hinv.
      destruct (str_items 0 items) as [l | e] eqn:Hitems.
      * right. unfold hands_over. exists "not_equals", (VStr (String.concat "," l)), [class_str], "T"%char.
        split; [reflexivity|]. split; [reflexivity|].
        intro s. exists "NOT IN". split; [reflexivity | now rewrite Hinv].
      * left. unfold rejects_operand. exists e. split; [|intro s; now rewrite Hinv].
        right. clear -Hitems. revert Hitems. generalize 0.
        induction items as [|x items IH]; intros i Hitems; simpl in Hitems; [discriminate|].
        destruct x; try (injection Hitems as <-; reflexivity).
        destruct (str_items (S i) items) eqn:Hrest; [discriminate|].
        injection Hitems as <-. now apply (IH (S i)).
  - destruct v as [ | b | n | t | items | d | cls shown ]; try reject_operand.
    + hand_over "greater_than" VNone [class_int; class_str] ">"%char ">".
    + hand_over "greater_than" (VBool b) [class_int; class_str] ">"%char ">".
    + hand_over "greater_than" (VInt n) [class_int; class_str] ">"%char ">".
    + hand_over "greater_than" (VList items) [class_int; class_str] ">"%char ">".
    + hand_over "greater_than" (VStr (strftime d)) [class_int; class_str] ">"%char ">".
    + hand_over "greater_than" (VObject cls shown) [class_int; class_str] ">"%char ">".
  - destruct v as [ | b | n | t | items | d | cls shown ]; try reject_operand.
    + hand_over "less_than" VNone [class_int; class_str] "<"%char "<".
    + hand_over "less_than" (VBool b) [class_int; class_str] "<"%char "<".
    + hand_over "less_than" (VInt n) [class_int; class_str] "<"%char "<".
    + hand_over "less_than" (VList items) [class_int; class_str] "<"%char "<".
    + hand_over "less_than" (VStr (strftime d)) [class_int; class_str] "<"%char "<".
    + hand_over "less_than" (VObject cls shown) [class_int; class_str] "<"%char "<".
  - pose (operand := fun start end_ : value =>
            match start, end_ with
            | VDatetime s, VDatetime e =>
                VStr (dateGenerate (strftime s) ++ "@" ++ dateGenerate (strftime e))
            | _, _ =>
                match as_int start, as_int end_ with
                | Some s, Some e => VStr (str_Z s ++ "@" ++ str_Z e)
                | _, _ => VNone
                end
            end).
    destruct a as [ | [|] | n | t | items | d | cls shown ];
      destruct b as [ | [|] | n' | t' | items' | d' | cls' shown' ];
      first [ reject_operand
            | match goal with
              | |- _ \/ hands_over (Call_between ?x ?y) =>
                  hand_over "between" (operand x y) [class_str] "B"%char "BETWEEN"
              end ].
Qed.

(** A condition call that returns found a field selected and no condition
    pending; it recorded its own name in [c_oper] and appended one token, which
    is not a logical-operator token. *)
Lemma condition_return (c : call) (self : QueryBuilder) :
  is_condition c = true ->
  eval (invoke c) self = Return tt ->
  exists caller token,
    exec (invoke c) self = with_condition caller token self /\
    truthy (Some caller) = true /\ is_logical token = false /\
    truthy (current_field self) = true /\ truthy (c_oper self) = false.
Proof.
  intros Hc Hret.
  destruct (condition_call_cases c Hc) as [(e & _ & Hrej) | (caller & operand & types & mark & Hname & Hmark & Hrun)].
  - unfold eval in Hret. rewrite Hrej in Hret. discriminate.
  - destruct (Hrun self) as (operator & Hop & Heq).
    unfold eval, exec in *. rewrite Heq in *.
    destruct (_add_condition_return _ _ _ _ _ Hret) as (Hf & _ & Hp & Hexec).
    exists caller, (str_attr (current_field self) ++ operator ++ str operand).
    repeat split; try assumption.
    apply (not_logical_by_char mark); [|assumption].
    rewrite !occurs_app, Hop. now rewrite orb_true_r.
Qed.

(** A condition call whose operand can be accepted at all raises
    [QueryMultipleExpressions] when a field is selected and a condition is
    pending, and leaves the builder as it was. *)
Lemma condition_pending (c : call) (self : QueryBuilder) :
  is_condition c = true ->
  (exists s, eval (invoke c) s = Return tt) ->
  truthy (current_field self) = true ->
  truthy (c_oper self) = true ->
  invoke c self = (self, Raise (Exception QueryMultipleExpressions msg_multiple)).
Proof.
  intros Hc (s0 & Hok) Hf Hp.
  destruct (condition_call_cases c Hc) as [(e & _ & Hrej) | (caller & operand & types & mark & _ & _ & Hrun)].
  - unfold eval in Hok. rewrite Hrej in Hok. discriminate.
  - destruct (Hrun s0) as (op0 & _ & Heq0).
    unfold eval in Hok. rewrite Heq0 in Hok.
    destruct (_add_condition_return _ _ _ _ _ Hok) as (_ & Ht & _).
    destruct (Hrun self) as (operator & _ & Heq). rewrite Heq.
    now apply _add_condition_pending.
Qed.

(** No call changes the builder when it raises. *)
Lemma invoke_raise (c : call) (self : QueryBuilder) (e : exn) :
  eval (invoke c) self = Raise e -> exec (invoke c) self = self.
Proof.
  destruct (is_condition c) eqn:Hc.
  - destruct (condition_call_cases c Hc) as [(e' & _ & Hrej) | (caller & operand & types & mark & _ & _ & Hrun)].
    + intros _. unfold exec. now rewrite Hrej.
    + destruct (Hrun self) as (operator & _ & Heq).
      unfold eval, exec. rewrite Heq. apply _add_condition_raise.
  - destruct c; try discriminate Hc; unfold eval, exec; simpl invoke.
    + unfold AND. rewrite _add_logical_operator_unfold.
      destruct (truthy (c_oper self)); [discriminate | reflexivity].
    + unfold OR. rewrite _add_logical_operator_unfold.
      destruct (truthy (c_oper self)); [discriminate | reflexivity].
    + unfold NQ. rewrite _add_logical_operator_unfold.
      destruct (truthy (c_oper self)); [discriminate | reflexivity].
    + discriminate.
    + rewrite bind_unfold, __str___unfold. intros _.
      destruct (_query self); [reflexivity|].
      destruct (current_field self); [|reflexivity].
      destruct (c_oper self); reflexivity.
Qed.

(** Serialization never changes the builder. *)
Lemma invoke_str_exec (self : QueryBuilder) : exec (invoke Call_str) self = self.
Proof.
  unfold exec. simpl invoke. rewrite bind_unfold, __str___unfold.
  destruct (_query self); [reflexivity|].
  destruct (current_field self); [|reflexivity].
  destruct (c_oper self); reflexivity.
Qed.

(** A logical-operator call returns exactly when a condition is pending; it
    then clears [current_field] and [c_oper] and appends its token. *)
Lemma logical_operator_run (c : call) (self : QueryBuilder) :
  is_logical_operator c = true ->
  exists caller token,
    is_logical token = true /\
    invoke c self =
      if truthy (c_oper self) then
        ({| _query := _query self ++ [token]; current_field := None;
            c_oper := None; l_oper := Some caller |}, Return tt)
      else (self, Raise (Exception QueryExpressionError msg_no_expression)).
Proof.
  destruct c; intro H; try discriminate H; simpl invoke.
  - exists "AND", "^". split; [reflexivity | apply _add_logical_operator_unfold].
  - exists "OR", "^OR". split; [reflexivity | apply _add_logical_operator_unfold].
  - exists "NQ", "^NQ". split; [reflexivity | apply _add_logical_operator_unfold].
Qed.

(* ===================================================================== *)
(** ** Serialization errors *)
(* ===================================================================== *)

(** C2, as amended: [__str__] raises [QueryEmpty] whenever the token sequence
    is empty, which includes serializing right after a bare [field] call on a
    new builder; with tokens present it raises [QueryMissingField] whenever no
    field is selected, which is the case right after a logical operator, and
    [QueryExpressionError] whenever a field is selected and no condition is
    attached to it, as after a logical operator followed by [field]. *)
Theorem __str___errors (self : QueryBuilder) (f : string) (c : call) :
  (_query self = [] -> raised (eval __str__ self) = Some QueryEmpty)
  /\ (_query self <> [] -> current_field self = None ->
      raised (eval __str__ self) = Some QueryMissingField)
  /\ (_query self <> [] -> current_field self <> None -> c_oper self = None ->
      raised (eval __str__ self) = Some QueryExpressionError)
  /\ raised (eval (field f ;; __str__) __init__) = Some QueryEmpty
  /\ (is_logical_operator c = true -> eval (invoke c) self = Return tt ->
      raised (eval __str__ (exec (invoke c) self)) = Some QueryMissingField
      /\ raised (eval (field f ;; __str__) (exec (invoke c) self)) =
           Some QueryExpressionError).
Proof.
  split; [|split; [|split; [|split]]].
  - intro Hq. unfold eval. rewrite __str___unfold, Hq. reflexivity.
  - intros Hq Hf. unfold eval. rewrite __str___unfold, Hf.
    destruct (_query self); [contradiction | reflexivity].
  - intros Hq Hf Hc. unfold eval. rewrite __str___unfold, Hc.
    destruct (_query self); [contradiction|].
    destruct (current_field self); [reflexivity | contradiction].
  - reflexivity.
  - intros Hop Hok.
    destruct (logical_operator_run c self Hop) as (caller & token & _ & Hrun).
    unfold eval, exec in *. rewrite Hrun in *.
    destruct (truthy (c_oper self)); [|discriminate].
    cbn [fst]. rewrite field_then, !__str___unfold. cbn.
    destruct (_query self); split; reflexivity.
Qed.

(** A concrete instance for C2: a new builder, the builder after
    [field('state').is_empty().AND()], the one after a further
    [field('priority')], and [AND] called on the builder after
    [field('state').is_empty()]. *)
Lemma __str___errors_witness :
  raised (eval __str__ __init__) = Some QueryEmpty
  /\ raised (build [Call_field "state"; Call_is_empty; Call_AND]) = Some QueryMissingField
  /\ raised (build [Call_field "state"; Call_is_empty; Call_AND; Call_field "priority"]) =
       Some QueryExpressionError
  /\ raised (eval (field "priority" ;; __str__)
               (exec (invoke Call_AND) (exec (chain [Call_field "state"; Call_is_empty]) __init__))) =
       Some QueryExpressionError.
Proof.
  split; [|split; [|split]].
  - destruct (__str___errors __init__ "state" Call_AND) as (H & _).
    apply H. reflexivity.
  - destruct (__str___errors
                (exec (chain [Call_field "state"; Call_is_empty; Call_AND]) __init__)
                "state" Call_AND) as (_ & H & _).
    apply H; [discriminate | reflexivity].
  - destruct (__str___errors
                (exec (chain [Call_field "state"; Call_is_empty; Call_AND; Call_field "priority"])
                   __init__)
                "state" Call_AND) as (_ & _ & H & _).
    apply H; [discriminate | discriminate | reflexivity].
  - destruct (__str___errors (exec (chain [Call_field "state"; Call_is_empty]) __init__)
                "priority" Call_AND) as (_ & _ & _ & _ & H).
    apply H; reflexivity.
Defined.

(** C2 as stated fails: serializing right after a bare field selection raises
    [QueryEmpty], not [QueryMissingField]; after a dangling logical operator
    it raises [QueryMissingField], not [QueryExpressionError]; and with a field
    selected and no condition attached it raises [QueryExpressionError], not
    [QueryMissingField]. *)
Lemma __str___errors_as_stated_fail :
  (raised (build [Call_field "state"]) = Some QueryEmpty
   /\ raised (build [Call_field "state"]) <> Some QueryMissingField)
  /\ (raised (build [Call_field "state"; Call_is_empty; Call_AND]) = Some QueryMissingField
      /\ raised (build [Call_field "state"; Call_is_empty; Call_AND]) <>
           Some QueryExpressionError)
  /\ (raised (build [Call_field "state"; Call_is_empty; Call_AND; Call_field "priority"]) =
        Some QueryExpressionError
      /\ raised (build [Call_field "state"; Call_is_empty; Call_AND; Call_field "priority"]) <>
           Some QueryMissingField).
Proof.
  repeat split; discriminate.
Qed.

(* ===================================================================== *)
(** ** Field selection *)
(* ===================================================================== *)

(** C3, as amended: [field], for every argument, sets the current field and
    leaves the token sequence, the pending condition marker and the logical
    operator marker as they were; so after a completed field and condition
    pair, selecting a (non-empty) field again and calling a condition method
    with an acceptable operand, without a logical operator in between, raises
    [QueryMultipleExpressions] and appends nothing. *)
Theorem field_sets_current_field_only (f : string) (self : QueryBuilder) (c1 c2 : call) :
  field f self =
    ({| _query := _query self; current_field := Some f;
        c_oper := c_oper self; l_oper := l_oper self |}, Return tt)
  /\ (f <> EmptyString ->
      is_condition c1 = true -> eval (invoke c1) self = Return tt ->
      is_condition c2 = true -> (exists s, eval (invoke c2) s = Return tt) ->
      (field f ;; invoke c2) (exec (invoke c1) self) =
        (set_current_field (Some f) (exec (invoke c1) self),
         Raise (Exception QueryMultipleExpressions msg_multiple))).
Proof.
  split; [reflexivity|].
  intros Hf Hc1 Hok1 Hc2 Hvalid.
  destruct (condition_return c1 self Hc1 Hok1) as (caller & token & Hexec & Hname & _ & _ & _).
  rewrite field_then. apply condition_pending; try assumption.
  - now apply truthy_Some_iff.
  - rewrite Hexec. exact Hname.
Qed.

(** A concrete instance for C3: [field('a').equals('1')] on a
    new builder, then [field('b').equals('2')]. *)
Lemma field_sets_current_field_only_witness :
  ("b" <> EmptyString
   /\ eval (invoke (Call_equals (VStr "1"))) (exec (field "a") __init__) = Return tt
   /\ eval (invoke (Call_equals (VStr "2"))) (exec (field "a") __init__) = Return tt)
  /\ (field "b" ;; invoke (Call_equals (VStr "2")))
       (exec (invoke (Call_equals (VStr "1"))) (exec (field "a") __init__)) =
     (set_current_field (Some "b")
        (exec (invoke (Call_equals (VStr "1"))) (exec (field "a") __init__)),
      Raise (Exception QueryMultipleExpressions msg_multiple)).
Proof.
  split; [split; [discriminate | split; reflexivity]|].
  apply (field_sets_current_field_only "b" (exec (field "a") __init__)
           (Call_equals (VStr "1")) (Call_equals (VStr "2")));
    try reflexivity; try discriminate.
  exists (exec (field "a") __init__). reflexivity.
Defined.

(** C3 as stated fails: [field] does not clear the pending condition marker,
    and a condition after re-selecting a field is rejected. *)
Lemma field_keeps_pending_condition :
  c_oper (exec (chain [Call_field "a"; Call_equals (VStr "1"); Call_field "b"]) __init__) =
    Some "equals"
  /\ c_oper (exec (chain [Call_field "a"; Call_equals (VStr "1"); Call_field "b"]) __init__) <>
       None
  /\ eval (chain [Call_field "a"; Call_equals (VStr "1"); Call_field "b";
                  Call_equals (VStr "2")]) __init__ =
       Raise (Exception QueryMultipleExpressions "Expected logical operator after expression")
  /\ eval (chain [Call_field "a"; Call_equals (VStr "1"); Call_field "b";
                  Call_equals (VStr "2")]) __init__ <> Return tt.
Proof.
  repeat split; discriminate.
Qed.

(* ===================================================================== *)
(** ** Two conditions in a row *)
(* ===================================================================== *)

(** C8: after any condition call that returned, a second condition call (any
    of the condition methods, with an operand it can accept) made with no
    logical operator in between raises [QueryMultipleExpressions] and leaves
    the builder, and so the token sequence, as it was. *)
Theorem second_condition_rejected (c1 c2 : call) (self : QueryBuilder)
    (Hc1 : is_condition c1 = true)
    (Hok : eval (invoke c1) self = Return tt)
    (Hc2 : is_condition c2 = true)
    (Hvalid : exists s, eval (invoke c2) s = Return tt) :
  invoke c2 (exec (invoke c1) self) =
    (exec (invoke c1) self, Raise (Exception QueryMultipleExpressions msg_multiple))
  /\ _query (exec (invoke c2) (exec (invoke c1) self)) = _query (exec (invoke c1) self).
Proof.
  destruct (condition_return c1 self Hc1 Hok) as (caller & token & Hexec & Hname & _ & Hf & _).
  assert (Hrun : invoke c2 (exec (invoke c1) self) =
                   (exec (invoke c1) self,
                    Raise (Exception QueryMultipleExpressions msg_multiple))).
  { apply condition_pending; try assumption; rewrite Hexec; assumption. }
  split; [exact Hrun|]. unfold exec at 1. now rewrite Hrun.
Qed.

(** A concrete instance for C8: [field('a').contains('x')] on a new
    builder, then [between(1, 10)]. *)
Lemma second_condition_rejected_witness :
  (eval (invoke (Call_contains (VStr "x"))) (exec (field "a") __init__) = Return tt
   /\ eval (invoke (Call_between (VInt 1) (VInt 10))) (exec (field "a") __init__) = Return tt)
  /\ raised (eval (invoke (Call_between (VInt 1) (VInt 10)))
               (exec (invoke (Call_contains (VStr "x"))) (exec (field "a") __init__))) =
       Some QueryMultipleExpressions
  /\ _query (exec (invoke (Call_between (VInt 1) (VInt 10)))
               (exec (invoke (Call_contains (VStr "x"))) (exec (field "a") __init__))) =
       ["aLIKEx"].
Proof.
  split; [split; reflexivity|].
  destruct (second_condition_rejected (Call_contains (VStr "x"))
              (Call_between (VInt 1) (VInt 10)) (exec (field "a") __init__))
    as (Hrun & Hq); try reflexivity.
  - exists (exec (field "a") __init__). reflexivity.
  - split; [unfold eval; now rewrite Hrun | exact Hq].
Defined.

(* ===================================================================== *)
(** ** A call that raises changes nothing *)
(* ===================================================================== *)

(** C9: whenever a call of a public method raises, the builder is exactly as
    before the call: token sequence, current field, pending condition marker
    and logical operator marker; the same holds for the shared routines
    [_add_condition] and [_add_logical_operator] with any arguments, so the
    pending condition marker changes only in a call of [_add_condition] that
    passed all its checks and returns. *)
Theorem raise_leaves_builder_unchanged (c : call) (self : QueryBuilder)
    (caller operator : string) (operand : value) (types : list pytype) :
  (forall e, eval (invoke c) self = Raise e -> exec (invoke c) self = self)
  /\ (forall e, eval (_add_condition caller operator operand types) self = Raise e ->
        exec (_add_condition caller operator operand types) self = self)
  /\ (forall e, eval (_add_logical_operator caller operator) self = Raise e ->
        exec (_add_logical_operator caller operator) self = self)
  /\ (forall e, eval __str__ self = Raise e -> exec __str__ self = self)
  /\ (c_oper (exec (_add_condition caller operator operand types) self) <> c_oper self ->
      eval (_add_condition caller operator operand types) self = Return tt).
Proof.
  split; [|split; [|split; [|split]]].
  - intro e. apply invoke_raise.
  - intro e. apply _add_condition_raise.
  - intros e. unfold eval, exec. rewrite _add_logical_operator_unfold.
    destruct (truthy (c_oper self)); [discriminate | reflexivity].
  - intros e _. unfold exec. now rewrite __str___unfold.
  - intro Hchanged.
    destruct (eval (_add_condition caller operator operand types) self) as [[]|e] eqn:Hres;
      [reflexivity|].
    apply _add_condition_raise in Hres. rewrite Hres in Hchanged. contradiction.
Qed.

(** A concrete instance for C9: [starts_with(5)] on the
    builder after [field('a')] raises [QueryTypeError] and changes nothing. *)
Lemma raise_leaves_builder_unchanged_witness :
  raised (eval (invoke (Call_starts_with (VInt 5))) (exec (field "a") __init__)) =
    Some QueryTypeError
  /\ exec (invoke (Call_starts_with (VInt 5))) (exec (field "a") __init__) =
       exec (field "a") __init__.
Proof.
  split; [reflexivity|].
  destruct (raise_leaves_builder_unchanged (Call_starts_with (VInt 5))
              (exec (field "a") __init__) "starts_with" "STARTSWITH" (VInt 5) [class_str])
    as (H & _).
  eapply H. reflexivity.
Defined.

(* ===================================================================== *)
(** ** The shape of the token sequence *)
(* ===================================================================== *)

Lemma alternating_snoc (b : bool) (q : list string) (t : string) :
  alternating b (q ++ [t]) =
    alternating b q && Bool.eqb (is_logical t) (negb (expects b (List.length q))).
Proof.
  unfold expects. revert b.
  induction q as [|a q IH]; intro b.
  - simpl. now rewrite andb_true_r.
  - cbn [app alternating List.length].
    rewrite IH, <- andb_assoc, Nat.even_succ, <- Nat.negb_even.
    destruct (Nat.even (List.length q)), b; reflexivity.
Qed.

Lemma alternating_no_adjacent (b : bool) (q : list string) :
  alternating b q = true -> adjacent_logical q = false.
Proof.
  revert b. induction q as [|a q IH]; intro b; simpl; [reflexivity|].
  intro H. apply andb_prop in H as [Ha Hq].
  destruct q as [|a' q']; [reflexivity|].
  rewrite (IH _ Hq), orb_false_r.
  simpl in Hq. apply andb_prop in Hq as [Ha' _].
  apply eqb_prop in Ha, Ha'. rewrite Ha, Ha', negb_involutive.
  now destruct b.
Qed.

Lemma alternating_predecessor (b : bool) (q : list string) (i : nat) (t : string) :
  alternating b q = true ->
  nth_error q i = Some t -> is_logical t = true ->
  (i = 0 /\ b = false) \/
  (exists j p, i = S j /\ nth_error q j = Some p /\ is_logical p = false).
Proof.
  revert b i. induction q as [|a q IH]; intros b i Halt Hi Ht.
  - destruct i; discriminate.
  - simpl in Halt. apply andb_prop in Halt as [Ha Hq]. apply eqb_prop in Ha.
    destruct i as [|i]; simpl in Hi.
    + injection Hi as ->. left. split; [reflexivity|].
      rewrite Ht in Ha. now destruct b.
    + right. destruct (IH _ _ Hq Hi Ht) as [[-> Hb] | (j & p & -> & Hj & Hp)].
      * exists 0, a. repeat split. rewrite Ha. now destruct b.
      * exists (S j), p. repeat split; assumption.
Qed.

Lemma well_formed_init : well_formed __init__.
Proof. split; reflexivity. Qed.

Lemma well_formed_call (c : call) (self : QueryBuilder) :
  well_formed self -> well_formed (exec (invoke c) self).
Proof.
  intros [Halt Hpend].
  destruct (eval (invoke c) self) as [[]|e] eqn:Hres;
    [|rewrite (invoke_raise _ _ _ Hres); now split].
  destruct (is_condition c) eqn:Hc.
  - destruct (condition_return c self Hc Hres) as (caller & token & -> & Hname & Htok & _ & Hnone).
    rewrite Hnone in Hpend. symmetry in Hpend. apply negb_false_iff in Hpend.
    unfold well_formed, with_condition. simpl _query. simpl c_oper. split.
    + rewrite alternating_snoc. unfold expects. rewrite Halt, Hpend, Htok. reflexivity.
    + rewrite Hname, length_app, Nat.add_1_r, Nat.even_succ, <- Nat.negb_even, Hpend.
      reflexivity.
  - destruct (is_logical_operator c) eqn:Hl.
    + destruct (logical_operator_run c self Hl) as (caller & token & Htok & Hrun).
      unfold eval, exec in *. rewrite Hrun in *.
      destruct (truthy (c_oper self)); [|discriminate].
      symmetry in Hpend. apply negb_true_iff in Hpend.
      unfold well_formed. simpl. split.
      * rewrite alternating_snoc. unfold expects. rewrite Halt, Hpend, Htok. reflexivity.
      * rewrite length_app, Nat.add_1_r, Nat.even_succ, <- Nat.negb_even, Hpend.
        reflexivity.
    + destruct c; try discriminate Hc; try discriminate Hl.
      * split; assumption.
      * rewrite invoke_str_exec. now split.
Qed.

Lemma reachable_well_formed (self : QueryBuilder) : reachable self -> well_formed self.
Proof.
  induction 1 as [|c self _ IH]; [apply well_formed_init | now apply well_formed_call].
Qed.

(** C10: in every builder reachable from a new one by calls of the public
    methods, the token sequence does not begin with a logical-operator token
    ([^], [^OR], [^NQ]), has no two logical-operator tokens next to each other,
    and every logical-operator token comes right after a token that is not
    one, that is, after a condition fragment. *)
Theorem logical_tokens_follow_conditions (self : QueryBuilder) (Hreach : reachable self) :
  starts_with_logical (_query self) = false
  /\ adjacent_logical (_query self) = false
  /\ (forall i t, nth_error (_query self) i = Some t -> is_logical t = true ->
        exists j p, i = S j /\ nth_error (_query self) j = Some p /\ is_logical p = false).
Proof.
  destruct (reachable_well_formed self Hreach) as [Halt _].
  split; [|split].
  - destruct (_query self) as [|t q]; [reflexivity|].
    simpl in *. apply andb_prop in Halt as [Ht _]. now apply eqb_prop in Ht.
  - now apply (alternating_no_adjacent true).
  - intros i t Hi Ht.
    destruct (alternating_predecessor true _ i t Halt Hi Ht) as [[_ Hb] | H];
      [discriminate | exact H].
Qed.

(** A concrete instance for C10: the builder after
    [field('a').is_empty().OR().field('b').equals('1')]. *)
Lemma logical_tokens_follow_conditions_witness :
  _query (exec (invoke (Call_equals (VStr "1")))
           (exec (invoke (Call_field "b"))
              (exec (invoke Call_OR)
                 (exec (invoke Call_is_empty)
                    (exec (invoke (Call_field "a")) __init__))))) = ["aISEMPTY"; "^OR"; "b=1"]
  /\ adjacent_logical ["aISEMPTY"; "^OR"; "b=1"] = false.
Proof.
  split; [reflexivity|].
  apply (logical_tokens_follow_conditions
           (exec (invoke (Call_equals (VStr "1")))
              (exec (invoke (Call_field "b"))
                 (exec (invoke Call_OR)
                    (exec (invoke Call_is_empty)
                       (exec (invoke (Call_field "a")) __init__)))))).
  repeat apply reachable_call. apply reachable_init.
Defined.

(* ===================================================================== *)
(** ** Ordering *)
(* ===================================================================== *)

Lemma length_append (a b : string) :
  String.length (a ++ b) = String.length a + String.length b.
Proof. induction a as [|c a IH]; simpl; [reflexivity | now rewrite IH]. Qed.

Lemma append_empty_r (a : string) : a ++ EmptyString = a.
Proof. induction a as [|c a IH]; simpl; [reflexivity | now rewrite IH]. Qed.

Lemma append_assoc (a b c : string) : (a ++ b) ++ c = a ++ b ++ c.
Proof. induction a as [|x a IH]; simpl; [reflexivity | now rewrite IH]. Qed.

Lemma ready_add_condition caller operator operand types f self :
  ready f self -> type_in operand types = true ->
  _add_condition caller operator operand types self =
    (with_condition caller (f ++ operator ++ str operand) self, Return tt).
Proof.
  intros (Hf & Hset & Hc) Ht.
  rewrite _add_condition_ok by assumption. now rewrite Hf.
Qed.

(** C4 does not hold of the code: with the field [f] selected and no condition
    pending, [order_ascending] appends the token [f ++ ORDERBY ++ f] and
    [order_descending] the token [f ++ ORDERBYDESC ++ f]: the field name is
    written in front of the directive as well as behind it, so the token is
    never [ORDERBYf], resp. [ORDERBYDESCf]. *)
Theorem order_token_repeats_field (f : string) (self : QueryBuilder)
    (Hready : ready f self) :
  order_ascending self =
    (with_condition "order_ascending" (f ++ "ORDERBY" ++ f) self, Return tt)
  /\ order_descending self =
    (with_condition "order_descending" (f ++ "ORDERBYDESC" ++ f) self, Return tt)
  /\ f ++ "ORDERBY" ++ f <> "ORDERBY" ++ f
  /\ f ++ "ORDERBYDESC" ++ f <> "ORDERBYDESC" ++ f.
Proof.
  assert (Hlen : forall d, f ++ d ++ f <> d ++ f).
  { intros d Heq. apply (f_equal String.length) in Heq.
    rewrite !length_append in Heq.
    destruct Hready as (Hf & Hset & _). rewrite Hf in Hset.
    destruct f; [discriminate|]. simpl in Heq. lia. }
  pose proof Hready as (Hf & _ & _).
  repeat split; try apply Hlen.
  - unfold order_ascending. rewrite bind_unfold. cbn [get].
    rewrite (ready_add_condition _ _ _ _ f) by (assumption || reflexivity).
    rewrite Hf. cbn [str_attr str]. now rewrite append_empty_r.
  - unfold order_descending. rewrite bind_unfold. cbn [get].
    rewrite (ready_add_condition _ _ _ _ f) by (assumption || reflexivity).
    rewrite Hf. cbn [str_attr str]. now rewrite append_empty_r.
Qed.

(** A concrete instance for C4: [field('name')] on a new builder,
    then [order_ascending], leaves the single token [nameORDERBYname]. *)
Lemma order_token_repeats_field_witness :
  ready "name" (exec (field "name") __init__)
  /\ _query (exec order_ascending (exec (field "name") __init__)) = ["nameORDERBYname"]
  /\ "nameORDERBYname" <> "ORDERBYname".
Proof.
  assert (Hready : ready "name" (exec (field "name") __init__))
    by (repeat split).
  split; [exact Hready|].
  destruct (order_token_repeats_field "name" (exec (field "name") __init__) Hready)
    as (Hasc & _ & Hne & _).
  split; [unfold exec at 1; now rewrite Hasc | exact Hne].
Defined.

(* ===================================================================== *)
(** ** [not_equals] against [equals] *)
(* ===================================================================== *)

Lemma str_items_all_str (items : list value) (i : nat) :
  forallb isinstance_str items = true -> str_items i items = Return (map str items).
Proof.
  revert i. induction items as [|x items IH]; intros i H; [reflexivity|].
  simpl in H. apply andb_prop in H as [Hx Hrest].
  destruct x; try discriminate Hx. simpl. now rewrite IH.
Qed.

Lemma str_items_not_str (items : list value) (i : nat) :
  existsb (fun x => negb (isinstance_str x)) items = true ->
  exists e, str_items i items = Raise e /\ exn_cls e = TypeError.
Proof.
  revert i. induction items as [|x items IH]; intros i H; [discriminate|].
  simpl in H.
  destruct x; try (eexists; split; reflexivity).
  simpl in H. destruct (IH (S i) H) as (e & He & Hcls).
  exists e. simpl. now rewrite He.
Qed.

(** C5 does not hold of the code for lists: with a field selected and no
    condition pending, [not_equals] does mirror [equals] on a text operand
    ([f!=v]), on a list whose items are all [str] ([fNOT IN] and the
    comma-joined items) and on operands of other kinds (the same
    [QueryTypeError]); but on a list with an item that is not a [str], which
    [equals] accepts and joins through [str()], [not_equals] raises the
    built-in [TypeError] of [str.join] and appends nothing. *)
Theorem not_equals_against_equals (f v : string) (texts items : list value) (other : value)
    (self : QueryBuilder)
    (Hready : ready f self)
    (Htexts : forallb isinstance_str texts = true)
    (Hitems : existsb (fun x => negb (isinstance_str x)) items = true)
    (Hstr : isinstance_str other = false)
    (Hlist : isinstance_list other = false) :
  not_equals (VStr v) self = (with_condition "not_equals" (f ++ "!=" ++ v) self, Return tt)
  /\ not_equals (VList texts) self =
       (with_condition "not_equals" (f ++ "NOT IN" ++ String.concat "," (map str texts)) self,
        Return tt)
  /\ not_equals other self = equals other self
  /\ raised (eval (not_equals other) self) = Some QueryTypeError
  /\ equals (VList items) self =
       (with_condition "equals" (f ++ "IN" ++ String.concat "," (map str items)) self,
        Return tt)
  /\ raised (eval (not_equals (VList items)) self) = Some TypeError
  /\ exec (not_equals (VList items)) self = self.
Proof.
  split; [|split; [|split; [|split; [|split]]]].
  - unfold not_equals. now rewrite (ready_add_condition _ _ _ _ f).
  - unfold not_equals, join, lift. rewrite bind_unfold, (str_items_all_str _ _ Htexts).
    now rewrite (ready_add_condition _ _ _ _ f).
  - destruct other; try discriminate; reflexivity.
  - destruct other; try discriminate; reflexivity.
  - unfold equals. now rewrite (ready_add_condition _ _ _ _ f).
  - destruct (str_items_not_str items 0 Hitems) as (e & He & Hcls).
    unfold eval, exec, not_equals, join, lift. rewrite !bind_unfold, He.
    split; [exact (f_equal Some Hcls) | reflexivity].
Qed.

(** A concrete instance for C5: after [field('state')] on a new
    builder, [equals([1, 2])] appends [stateIN1,2] and [not_equals([1, 2])]
    raises [TypeError]. *)
Lemma not_equals_against_equals_witness :
  ready "state" (exec (field "state") __init__)
  /\ _query (exec (equals (VList [VInt 1; VInt 2])) (exec (field "state") __init__)) =
       ["stateIN1,2"]
  /\ raised (eval (not_equals (VList [VInt 1; VInt 2])) (exec (field "state") __init__)) =
       Some TypeError
  /\ _query (exec (not_equals (VList [VInt 1; VInt 2])) (exec (field "state") __init__)) = [].
Proof.
  assert (Hready : ready "state" (exec (field "state") __init__))
    by (repeat split).
  split; [exact Hready|].
  destruct (not_equals_against_equals "state" "6" [VStr "1"; VStr "2"] [VInt 1; VInt 2] VNone
              (exec (field "state") __init__) Hready)
    as (_ & _ & _ & _ & Heq & Hraise & Hexec); try reflexivity.
  split; [unfold exec at 1; now rewrite Heq|].
  split; [exact Hraise | now rewrite Hexec].
Defined.

(* ===================================================================== *)
(** ** The text of a date *)
(* ===================================================================== *)

Lemma all_from_spec (P : N -> bool) (k : nat) (start : N) :
  all_from P k start = true ->
  forall n, (start <= n < start + N.of_nat k)%N -> P n = true.
Proof.
  revert start. induction k as [|k IH]; intros start H n Hn; [lia|].
  simpl in H. apply andb_prop in H as [Hstart Hrest].
  destruct (N.eq_dec n start) as [->|Hne]; [assumption|].
  apply (IH (N.succ start)); [assumption | lia].
Qed.

Lemma pad0_two_digits (n : N) :
  (n < 100)%N -> pad0 2 n = String (digit (n / 10)) (String (digit n) EmptyString).
Proof.
  intro Hn.
  apply String.eqb_eq.
  apply (all_from_spec
           (fun n => String.eqb (pad0 2 n)
                       (String (digit (n / 10)) (String (digit n) EmptyString)))
           100 0); [vm_compute; reflexivity | lia].
Qed.

Lemma str_N_four_digits (n : N) :
  (1000 <= n < 10000)%N ->
  str_N n =
    String (digit (n / 1000)) (String (digit (n / 100)) (String (digit (n / 10))
           (String (digit n) EmptyString))).
Proof.
  intro Hn.
  apply String.eqb_eq.
  apply (all_from_spec
           (fun n => String.eqb (str_N n)
                       (String (digit (n / 1000)) (String (digit (n / 100))
                          (String (digit (n / 10)) (String (digit n) EmptyString)))))
           (90 * 100) 1000); [vm_compute; reflexivity | lia].
Qed.

(** For the dates [datetime] accepts whose year has four digits,
    [strftime('%Y-%m-%d %H:%M:%S')] is the text [YYYY-MM-DD HH:MM:SS]. *)
Lemma strftime_iso_text (d : datetime) :
  valid_datetime d = true -> four_digit_year d = true -> strftime d = iso_text d.
Proof.
  unfold valid_datetime, four_digit_year. intros H Hy.
  repeat (apply andb_prop in H as [H ?]).
  repeat match goal with
         | H : (_ <=? _)%N = true |- _ => apply N.leb_le in H
         | H : (_ <? _)%N = true |- _ => apply N.ltb_lt in H
         end.
  unfold strftime, iso_text.
  rewrite str_N_four_digits by lia.
  rewrite !pad0_two_digits by lia.
  reflexivity.
Qed.

(* ===================================================================== *)
(** ** [greater_than] and [less_than] *)
(* ===================================================================== *)

(** C6, as amended: with a field [f] selected and no condition pending,
    [greater_than] and [less_than] raise, on a plain text operand, a
    [QueryTypeError] whose message names the accepted types ([int],
    [datetime]), and leave the builder as it was; on an integer operand whose
    decimal text is within the interpreter's limit of 4300 digits they append
    [f>n], resp. [f<n], with the integer in decimal; on a date operand whose
    year has four digits (1000 to 9999) they append [f>], resp. [f<], followed
    by the date as [YYYY-MM-DD HH:MM:SS]. *)
Theorem relational_operands (f t : string) (n : Z) (d : datetime) (self : QueryBuilder)
    (Hready : ready f self)
    (Hdigits : within_str_digits n = true)
    (Hdate : valid_datetime d = true)
    (Hyear : four_digit_year d = true) :
  greater_than (VStr t) self =
    (self, Raise (Exception QueryTypeError
       "Expected value of type `int` or instance of `datetime`, not <class 'str'>"))
  /\ less_than (VStr t) self =
    (self, Raise (Exception QueryTypeError
       "Expected value of type `int` or instance of `datetime`, not <class 'str'>"))
  /\ greater_than (VInt n) self =
       (with_condition "greater_than" (f ++ ">" ++ str_Z n) self, Return tt)
  /\ less_than (VInt n) self =
       (with_condition "less_than" (f ++ "<" ++ str_Z n) self, Return tt)
  /\ greater_than (VDatetime d) self =
       (with_condition "greater_than" (f ++ ">" ++ iso_text d) self, Return tt)
  /\ less_than (VDatetime d) self =
       (with_condition "less_than" (f ++ "<" ++ iso_text d) self, Return tt).
Proof.
  split; [reflexivity|]. split; [reflexivity|].
  rewrite <- (strftime_iso_text d Hdate Hyear).
  repeat split.
  - unfold greater_than. now rewrite (ready_add_condition _ _ _ _ f).
  - unfold less_than. now rewrite (ready_add_condition _ _ _ _ f).
  - unfold greater_than. now rewrite (ready_add_condition _ _ _ _ f).
  - unfold less_than. now rewrite (ready_add_condition _ _ _ _ f).
Qed.

(** A concrete instance for C6: after [field('opened_at')] on a new
    builder, with the text ["5"], the integer 5 and the date 2016-08-04
    09:05:00. *)
Lemma relational_operands_witness :
  (ready "opened_at" (exec (field "opened_at") __init__)
   /\ within_str_digits 5 = true
   /\ valid_datetime (mk_datetime 2016 8 4 9 5 0) = true
   /\ four_digit_year (mk_datetime 2016 8 4 9 5 0) = true)
  /\ raised (eval (greater_than (VStr "5")) (exec (field "opened_at") __init__)) =
       Some QueryTypeError
  /\ _query (exec (greater_than (VInt 5)) (exec (field "opened_at") __init__)) =
       ["opened_at>5"]
  /\ _query (exec (less_than (VDatetime (mk_datetime 2016 8 4 9 5 0)))
               (exec (field "opened_at") __init__)) =
       ["opened_at<2016-08-04 09:05:00"].
Proof.
  assert (Hready : ready "opened_at" (exec (field "opened_at") __init__))
    by (repeat split).
  assert (Hdigits : within_str_digits 5 = true) by (vm_compute; reflexivity).
  split; [split; [exact Hready | split; [exact Hdigits | split; reflexivity]]|].
  destruct (relational_operands "opened_at" "5" 5 (mk_datetime 2016 8 4 9 5 0)
              (exec (field "opened_at") __init__) Hready Hdigits eq_refl eq_refl)
    as (Htext & _ & Hint & _ & _ & Hdate).
  split; [unfold eval; now rewrite Htext|].
  split; [unfold exec at 1; now rewrite Hint | unfold exec at 1; now rewrite Hdate].
Defined.

(** C6 as stated fails for a date before the year 1000: [strftime] prints
    the year 999 with three digits, so [greater_than] and [less_than] append a
    text that is not of the form [YYYY-MM-DD HH:MM:SS]. *)
Lemma relational_operand_before_year_1000 :
  valid_datetime (mk_datetime 999 12 31 23 59 59) = true
  /\ _query (exec (greater_than (VDatetime (mk_datetime 999 12 31 23 59 59)))
               (exec (field "opened_at") __init__)) =
       ["opened_at>999-12-31 23:59:59"]
  /\ _query (exec (greater_than (VDatetime (mk_datetime 999 12 31 23 59 59)))
               (exec (field "opened_at") __init__)) <>
       ["opened_at>" ++ iso_text (mk_datetime 999 12 31 23 59 59)]
  /\ iso_text (mk_datetime 999 12 31 23 59 59) = "0999-12-31 23:59:59"
  /\ _query (exec (less_than (VDatetime (mk_datetime 999 12 31 23 59 59)))
               (exec (field "opened_at") __init__)) =
       ["opened_at<999-12-31 23:59:59"].
Proof.
  repeat split. vm_compute. discriminate.
Qed.

(* ===================================================================== *)
(** ** [between] *)
(* ===================================================================== *)

(** C7, as amended: with a field [f] selected and no condition pending,
    [between] appends [fBETWEEN<start>@<end>] for two integers whose decimal
    text is within the interpreter's limit of 4300 digits (1 and 10 give
    [fBETWEEN1@10]), where a boolean, being an instance of [int], counts as
    the integer 1 or 0; for two dates whose years have four digits it appends
    [fBETWEEN], the text [javascript:gs.dateGenerate("<start>")], [@] and the
    same for the end, both dates as [YYYY-MM-DD HH:MM:SS]; and for every pair
    that is neither two dates nor two instances of [int] (integers or
    booleans) it raises [QueryTypeError] and leaves the builder as it was. *)
Theorem between_operands (f : string) (a b : Z) (p q : value) (s e : datetime)
    (x y : value) (self : QueryBuilder)
    (Hready : ready f self)
    (Ha : within_str_digits a = true)
    (Hb : within_str_digits b = true)
    (Hp : as_int p = Some a)
    (Hq : as_int q = Some b)
    (Hs : valid_datetime s = true)
    (He : valid_datetime e = true)
    (Hsy : four_digit_year s = true)
    (Hey : four_digit_year e = true)
    (Hdates : hasattr_strftime x && hasattr_strftime y = false)
    (Hints : isinstance_int x && isinstance_int y = false) :
  between (VInt a) (VInt b) self =
    (with_condition "between" (f ++ "BETWEEN" ++ str_Z a ++ "@" ++ str_Z b) self, Return tt)
  /\ _query (exec (between (VInt 1) (VInt 10)) self) = List.app (_query self) [f ++ "BETWEEN1@10"]
  /\ between p q self =
    (with_condition "between" (f ++ "BETWEEN" ++ str_Z a ++ "@" ++ str_Z b) self, Return tt)
  /\ between (VDatetime s) (VDatetime e) self =
       (with_condition "between"
          (f ++ "BETWEEN" ++
           "javascript:gs.dateGenerate(" ++ String dquote (iso_text s) ++ String dquote ")" ++
           "@" ++
           "javascript:gs.dateGenerate(" ++ String dquote (iso_text e) ++ String dquote ")")
          self, Return tt)
  /\ raised (eval (between x y) self) = Some QueryTypeError
  /\ exec (between x y) self = self.
Proof.
  split; [|split; [|split; [|split]]].
  - cbv beta iota delta [between as_int]. now rewrite (ready_add_condition _ _ _ _ f).
  - unfold exec. cbv beta iota delta [between as_int].
    now rewrite (ready_add_condition _ _ _ _ f).
  - destruct p as [ | [|] | ? | ? | ? | ? | ? ? ]; try discriminate Hp;
      destruct q as [ | [|] | ? | ? | ? | ? | ? ? ]; try discriminate Hq;
      injection Hp as <-; injection Hq as <-;
      cbv beta iota delta [between as_int];
      now rewrite (ready_add_condition _ _ _ _ f).
  - cbv beta iota delta [between].
    rewrite (ready_add_condition _ _ _ _ f) by (assumption || reflexivity).
    rewrite (strftime_iso_text s Hs Hsy), (strftime_iso_text e He Hey).
    unfold dateGenerate, str.
    repeat (rewrite ?append_assoc; cbn [append]). reflexivity.
  - destruct x as [ | [|] | ? | ? | ? | ? | ? ? ]; destruct y as [ | [|] | ? | ? | ? | ? | ? ? ];
      try discriminate Hdates; try discriminate Hints; split; reflexivity.
Qed.

(** A concrete instance for C7: after [field('sys_created_on')] on a new
    builder, with 1 and 10, with [True] and 10, two dates of 2016, and the
    mixed pair of 1 and the text ["10"]. *)
Lemma between_operands_witness :
  (ready "sys_created_on" (exec (field "sys_created_on") __init__)
   /\ within_str_digits 1 = true /\ within_str_digits 10 = true
   /\ as_int (VBool true) = Some 1%Z /\ as_int (VInt 10) = Some 10%Z
   /\ valid_datetime (mk_datetime 2016 1 1 0 0 0) = true
   /\ valid_datetime (mk_datetime 2016 12 31 23 59 59) = true
   /\ four_digit_year (mk_datetime 2016 1 1 0 0 0) = true
   /\ four_digit_year (mk_datetime 2016 12 31 23 59 59) = true)
  /\ _query (exec (between (VInt 1) (VInt 10)) (exec (field "sys_created_on") __init__)) =
       ["sys_created_onBETWEEN1@10"]
  /\ _query (exec (between (VBool true) (VInt 10)) (exec (field "sys_created_on") __init__)) =
       ["sys_created_onBETWEEN1@10"]
  /\ _query (exec (between (VDatetime (mk_datetime 2016 1 1 0 0 0))
                     (VDatetime (mk_datetime 2016 12 31 23 59 59)))
               (exec (field "sys_created_on") __init__)) =
       ["sys_created_onBETWEENjavascript:gs.dateGenerate(" ++
        String dquote "2016-01-01 00:00:00" ++ String dquote ")@javascript:gs.dateGenerate(" ++
        String dquote "2016-12-31 23:59:59" ++ String dquote ")"]
  /\ raised (eval (between (VInt 1) (VStr "10")) (exec (field "sys_created_on") __init__)) =
       Some QueryTypeError.
Proof.
  assert (Hready : ready "sys_created_on" (exec (field "sys_created_on") __init__))
    by (repeat split).
  assert (H1 : within_str_digits 1 = true) by (vm_compute; reflexivity).
  assert (H10 : within_str_digits 10 = true) by (vm_compute; reflexivity).
  split; [split; [exact Hready | split; [exact H1 | split; [exact H10 | repeat split]]]|].
  destruct (between_operands "sys_created_on" 1 10 (VBool true) (VInt 10)
              (mk_datetime 2016 1 1 0 0 0) (mk_datetime 2016 12 31 23 59 59)
              (VInt 1) (VStr "10") (exec (field "sys_created_on") __init__)
              Hready H1 H10 eq_refl eq_refl eq_refl eq_refl eq_refl eq_refl eq_refl eq_refl)
    as (_ & Hints & Hbool & Hdates & Hmixed & _).
  split; [exact Hints|].
  split; [unfold exec at 1; now rewrite Hbool|].
  split; [unfold exec at 1; now rewrite Hdates | exact Hmixed].
Defined.

(** C7 as stated fails in two places.  A pair of a boolean and an integer,
    a mixed pair, is accepted: [between(True, 5)] appends [fBETWEEN1@5] and
    raises nothing.  And two dates before the year 1000 are written with a
    year of three digits, not as [YYYY-MM-DD HH:MM:SS]. *)
Lemma between_accepts_bool_and_short_year :
  (between (VBool true) (VInt 5) (exec (field "f") __init__) =
     (with_condition "between" "fBETWEEN1@5" (exec (field "f") __init__), Return tt)
   /\ raised (eval (between (VBool true) (VInt 5)) (exec (field "f") __init__)) <>
        Some QueryTypeError)
  /\ (valid_datetime (mk_datetime 999 1 1 0 0 0) = true
      /\ valid_datetime (mk_datetime 999 12 31 23 59 59) = true
      /\ _query (exec (between (VDatetime (mk_datetime 999 1 1 0 0 0))
                         (VDatetime (mk_datetime 999 12 31 23 59 59)))
                   (exec (field "f") __init__)) =
           ["fBETWEENjavascript:gs.dateGenerate(" ++
            String dquote "999-01-01 00:00:00" ++ String dquote ")@javascript:gs.dateGenerate(" ++
            String dquote "999-12-31 23:59:59" ++ String dquote ")"]
      /\ iso_text (mk_datetime 999 1 1 0 0 0) = "0999-01-01 00:00:00").
Proof.
  repeat split. discriminate.
Qed.

(* ===================================================================== *)
(** ** Further invariants of reachable builders *)
(* ===================================================================== *)

Lemma even_le_1 (n : nat) : Nat.even n = true -> (n <= 1 <-> n = 0).
Proof.
  destruct n as [|[|n]]; simpl; intro H; try discriminate; split; intro; lia.
Qed.

Lemma markers_call (c : call) (self : QueryBuilder) :
  well_formed self -> markers_consistent self ->
  markers_consistent (exec (invoke c) self).
Proof.
  intros [_ Hpend] Hm. pose proof Hm as (Hname & Hfield & Hl & Hlname).
  destruct (eval (invoke c) self) as [[]|e] eqn:Hres;
    [|rewrite (invoke_raise _ _ _ Hres); exact Hm].
  destruct (is_condition c) eqn:Hc.
  - destruct (condition_return c self Hc Hres)
      as (caller & token & -> & Hcaller & _ & Hset & Hnone).
    rewrite Hnone in Hpend. symmetry in Hpend. apply negb_false_iff in Hpend.
    unfold markers_consistent, with_condition. simpl.
    split; [now right|]. split; [|split; [|exact Hlname]].
    + intros _ Hcf. rewrite Hcf in Hset. discriminate.
    + rewrite Hl, length_app. simpl. rewrite (even_le_1 _ Hpend). lia.
  - destruct c; try discriminate Hc.
    1-3: (unfold eval, exec in *; simpl invoke in *;
          unfold AND, OR, NQ in *; rewrite _add_logical_operator_unfold in *;
          destruct (truthy (c_oper self)) eqn:Hp; [|discriminate];
          symmetry in Hpend; apply negb_true_iff in Hpend;
          unfold markers_consistent; simpl;
          split; [now left|]; split; [discriminate|]; split;
          [ split; [discriminate|];
            rewrite length_app; simpl;
            destruct (List.length (_query self)); [discriminate Hpend | lia]
          | intros name Hn; injection Hn as <-; simpl; tauto ]).
    + unfold markers_consistent, exec. simpl.
      split; [exact Hname|]. split; [discriminate|]. split; assumption.
    + rewrite invoke_str_exec. exact Hm.
Qed.

Lemma reachable_markers (self : QueryBuilder) :
  reachable self -> markers_consistent self.
Proof.
  induction 1 as [|c self Hreach IH].
  - repeat split; simpl; try (now left); try discriminate; lia.
  - apply markers_call; [now apply reachable_well_formed | exact IH].
Qed.

Lemma alternating_parity (b : bool) (q : list string) (i : nat) (t : string) :
  alternating b q = true -> nth_error q i = Some t ->
  is_logical t = negb (expects b i).
Proof.
  unfold expects. revert b i. induction q as [|a q IH]; intros b i Halt Hi.
  - destruct i; discriminate.
  - simpl in Halt. apply andb_prop in Halt as [Ha Hq]. apply eqb_prop in Ha.
    destruct i as [|i]; simpl in Hi.
    + injection Hi as ->. exact Ha.
    + rewrite (IH _ _ Hq Hi), Nat.even_succ, <- Nat.negb_even.
      destruct (Nat.even i), b; reflexivity.
Qed.

Lemma reachable_parity (self : QueryBuilder) :
  reachable self ->
  (forall i t, nth_error (_query self) i = Some t -> is_logical t = Nat.odd i)
  /\ truthy (c_oper self) = Nat.odd (List.length (_query self)).
Proof.
  intro Hreach. destruct (reachable_well_formed self Hreach) as [Halt Hpend].
  split.
  - intros i t Hi. rewrite (alternating_parity true _ i t Halt Hi).
    unfold expects. rewrite <- Nat.negb_even. now destruct (Nat.even i).
  - now rewrite Hpend, Nat.negb_even.
Qed.

Lemma built_reachable (self : QueryBuilder) : built self -> reachable self.
Proof.
  induction 1 as [|c self _ IH _]; [apply reachable_init | now apply reachable_call].
Qed.

(** X1: in every builder that calls which returned have built from a new
    one, conditions and logical operators strictly take turns: the token at an even position (counting
    from 0) is a condition fragment and the token at an odd position is a
    logical-operator token, so that two condition fragments never stand next
    to each other either; and a condition is pending exactly when the number
    of tokens is odd. *)
Theorem tokens_alternate (self : QueryBuilder) (Hbuilt : built self) :
  (forall i t, nth_error (_query self) i = Some t -> is_logical t = Nat.odd i)
  /\ truthy (c_oper self) = Nat.odd (List.length (_query self)).
Proof.
  pose proof (built_reachable self Hbuilt) as Hreach.
  destruct (reachable_well_formed self Hreach) as [Halt Hpend].
  split.
  - intros i t Hi.
    pose proof (alternating_parity true _ i t Halt Hi) as Ht.
    unfold expects in Ht. rewrite Ht, <- Nat.negb_even.
    now destruct (Nat.even i).
  - rewrite Hpend. apply Nat.negb_even.
Qed.

(** An instance for X1: the builder after
    [field('a').is_empty().OR().field('b').equals('1')]. *)
Lemma tokens_alternate_witness :
  built (exec (invoke (Call_equals (VStr "1")))
           (exec (invoke (Call_field "b"))
              (exec (invoke Call_OR)
                 (exec (invoke Call_is_empty)
                    (exec (invoke (Call_field "a")) __init__)))))
  /\ _query (exec (invoke (Call_equals (VStr "1")))
               (exec (invoke (Call_field "b"))
                  (exec (invoke Call_OR)
                     (exec (invoke Call_is_empty)
                        (exec (invoke (Call_field "a")) __init__))))) =
       ["aISEMPTY"; "^OR"; "b=1"]
  /\ is_logical "aISEMPTY" = Nat.odd 0
  /\ is_logical "^OR" = Nat.odd 1
  /\ is_logical "b=1" = Nat.odd 2
  /\ truthy (c_oper (exec (invoke (Call_equals (VStr "1")))
                       (exec (invoke (Call_field "b"))
                          (exec (invoke Call_OR)
                             (exec (invoke Call_is_empty)
                                (exec (invoke (Call_field "a")) __init__)))))) =
       Nat.odd 3.
Proof.
  assert (Hbuilt : built (exec (invoke (Call_equals (VStr "1")))
                            (exec (invoke (Call_field "b"))
                               (exec (invoke Call_OR)
                                  (exec (invoke Call_is_empty)
                                     (exec (invoke (Call_field "a")) __init__))))))
    by (repeat (apply built_call; [|reflexivity]); apply built_init).
  split; [exact Hbuilt|]. split; [reflexivity|].
  destruct (tokens_alternate _ Hbuilt) as (H & Hpend).
  split; [apply (H 0); reflexivity|].
  split; [apply (H 1); reflexivity|].
  split; [apply (H 2); reflexivity | exact Hpend].
Defined.

(** X2: on every builder that calls which returned have built from a new
    one, serialization returns exactly when a condition is pending, which is exactly when the token sequence ends with
    a condition fragment; it then returns the tokens concatenated without a
    separator.  When no condition is pending it raises. *)
Theorem str_returns_iff_pending (self : QueryBuilder) (Hbuilt : built self) :
  (truthy (c_oper self) = true ->
     eval __str__ self = Return (String.concat EmptyString (_query self)))
  /\ (truthy (c_oper self) = false -> exists e, eval __str__ self = Raise e)
  /\ (truthy (c_oper self) = true <->
        exists q t, _query self = List.app q [t] /\ is_logical t = false).
Proof.
  pose proof (built_reachable self Hbuilt) as Hreach.
  destruct (reachable_parity self Hreach) as [Hpar Hpend].
  destruct (reachable_markers self Hreach) as (Hname & Hfield & _ & _).
  split; [|split].
  - intro Hp. unfold eval. rewrite __str___unfold. cbn [snd].
    specialize (Hfield Hp). rewrite Hp in Hpend.
    destruct (_query self); [discriminate Hpend|].
    destruct (current_field self); [|contradiction].
    destruct (c_oper self); [reflexivity | discriminate Hp].
  - intro Hp. destruct Hname as [Hnone | Htrue]; [|rewrite Hp in Htrue; discriminate].
    unfold eval. rewrite __str___unfold, Hnone. cbn [snd].
    destruct (_query self); [eexists; reflexivity|].
    destruct (current_field self); eexists; reflexivity.
  - rewrite Hpend. split.
    + intro Hodd.
      destruct (_query self) as [|a q] eqn:Hq using rev_ind; [discriminate Hodd|].
      exists q, a. split; [reflexivity|].
      rewrite (Hpar (List.length q) a) by (rewrite nth_error_app2, Nat.sub_diag; auto).
      rewrite length_app, Nat.add_1_r, Nat.odd_succ in Hodd.
      now rewrite <- Nat.negb_even, Hodd.
    + intros (q & t & Hq & Ht).
      rewrite (Hpar (List.length q) t) in Ht
        by (rewrite Hq, nth_error_app2, Nat.sub_diag; auto).
      rewrite Hq, length_app, Nat.add_1_r, Nat.odd_succ.
      now rewrite <- Nat.negb_odd, Ht.
Qed.

(** An instance for X2: the builder after [field('a').is_empty()] is
    serialized as [aISEMPTY]; after a further [AND()] serialization raises. *)
Lemma str_returns_iff_pending_witness :
  eval __str__ (exec (invoke Call_is_empty) (exec (invoke (Call_field "a")) __init__)) =
    Return "aISEMPTY"
  /\ exists e,
       eval __str__ (exec (invoke Call_AND)
                       (exec (invoke Call_is_empty)
                          (exec (invoke (Call_field "a")) __init__))) = Raise e.
Proof.
  split.
  - destruct (str_returns_iff_pending
                (exec (invoke Call_is_empty) (exec (invoke (Call_field "a")) __init__)))
      as (H & _).
    + repeat (apply built_call; [|reflexivity]). apply built_init.
    + apply H. reflexivity.
  - destruct (str_returns_iff_pending
                (exec (invoke Call_AND)
                   (exec (invoke Call_is_empty) (exec (invoke (Call_field "a")) __init__))))
      as (_ & H & _).
    + repeat (apply built_call; [|reflexivity]). apply built_init.
    + apply H. reflexivity.
Defined.

(** X3: on every builder that calls which returned have built from a new
    one, [l_oper] is [None] exactly as long as no logical operator has been
    appended (the token sequence has at most one
    token), and otherwise holds the name of one of [AND], [OR], [NQ]: once a
    logical operator has been appended the marker is never cleared again. *)
Theorem l_oper_set_once (self : QueryBuilder) (Hbuilt : built self) :
  (l_oper self = None <-> List.length (_query self) <= 1)
  /\ (forall name, l_oper self = Some name -> In name ["AND"; "OR"; "NQ"])
  /\ (forall c, l_oper self <> None -> l_oper (exec (invoke c) self) <> None).
Proof.
  pose proof (built_reachable self Hbuilt) as Hreach.
  destruct (reachable_markers self Hreach) as (_ & _ & Hl & Hlname).
  split; [exact Hl|]. split; [exact Hlname|].
  intros c Hset.
  destruct (reachable_markers _ (reachable_call c self Hreach)) as (_ & _ & Hl' & _).
  destruct (reachable_parity self Hreach) as [_ Hpend].
  intro Hnone. apply Hl' in Hnone.
  assert (Hlen : ~ List.length (_query self) <= 1) by (intro H; apply Hset; now apply Hl).
  destruct (eval (invoke c) self) as [[]|e] eqn:Hres;
    [|rewrite (invoke_raise _ _ _ Hres) in Hnone; contradiction].
  destruct (is_condition c) eqn:Hc.
  - destruct (condition_return c self Hc Hres) as (caller & token & Hexec & _).
    rewrite Hexec in Hnone. unfold with_condition in Hnone. simpl in Hnone.
    rewrite length_app in Hnone. simpl in Hnone. lia.
  - destruct (is_logical_operator c) eqn:Hop.
    + destruct (logical_operator_run c self Hop) as (caller & token & _ & Hrun).
      unfold eval, exec in *. rewrite Hrun in *.
      destruct (truthy (c_oper self)); [|discriminate].
      simpl in Hnone. rewrite length_app in Hnone. simpl in Hnone. lia.
    + destruct c; try discriminate Hc; try discriminate Hop.
      * unfold exec in Hnone. simpl in Hnone. contradiction.
      * rewrite invoke_str_exec in Hnone. contradiction.
Qed.

(** An instance for X3: after [field('a').is_empty().OR()] the marker holds
    [OR], and it still does after [field('b')]. *)
Lemma l_oper_set_once_witness :
  l_oper (exec (invoke Call_OR)
            (exec (invoke Call_is_empty) (exec (invoke (Call_field "a")) __init__))) = Some "OR"
  /\ l_oper (exec (invoke (Call_field "b"))
               (exec (invoke Call_OR)
                  (exec (invoke Call_is_empty) (exec (invoke (Call_field "a")) __init__)))) <>
       None.
Proof.
  split; [reflexivity|].
  destruct (l_oper_set_once
              (exec (invoke Call_OR)
                 (exec (invoke Call_is_empty) (exec (invoke (Call_field "a")) __init__))))
    as (_ & _ & H).
  - repeat (apply built_call; [|reflexivity]). apply built_init.
  - apply H. discriminate.
Defined.

(* ===================================================================== *)
(** ** Logical operators *)
(* ===================================================================== *)

Lemma operator_token_run (c : call) (t : string) (self : QueryBuilder) :
  In (c, t) operator_tokens ->
  exists caller,
    In caller ["AND"; "OR"; "NQ"] /\
    invoke c self =
      if truthy (c_oper self) then
        ({| _query := _query self ++ [t]; current_field := None;
            c_oper := None; l_oper := Some caller |}, Return tt)
      else (self, Raise (Exception QueryExpressionError msg_no_expression)).
Proof.
  unfold operator_tokens. simpl.
  intros [H | [H | [H | []]]]; injection H as <- <-; simpl invoke.
  - exists "AND". split; [simpl; tauto | apply _add_logical_operator_unfold].
  - exists "OR". split; [simpl; tauto | apply _add_logical_operator_unfold].
  - exists "NQ". split; [simpl; tauto | apply _add_logical_operator_unfold].
Qed.

(** X4: a logical operator ([AND], [OR], [NQ]) called when no condition is
    pending raises [QueryExpressionError] and changes nothing; this is the
    case on a new builder, right after a field selection on a new builder,
    and right after another logical operator that returned, so a query can
    neither open with an operator nor hold two operators in a row. *)
Theorem logical_operator_needs_condition (c c' : call) (f : string) (self : QueryBuilder)
    (Hop : is_logical_operator c = true) :
  (truthy (c_oper self) = false ->
     invoke c self = (self, Raise (Exception QueryExpressionError msg_no_expression)))
  /\ invoke c __init__ =
       (__init__, Raise (Exception QueryExpressionError msg_no_expression))
  /\ invoke c (exec (field f) __init__) =
       (exec (field f) __init__, Raise (Exception QueryExpressionError msg_no_expression))
  /\ (is_logical_operator c' = true -> eval (invoke c') self = Return tt ->
      invoke c (exec (invoke c') self) =
        (exec (invoke c') self, Raise (Exception QueryExpressionError msg_no_expression))).
Proof.
  assert (Hnone : forall s, truthy (c_oper s) = false ->
            invoke c s = (s, Raise (Exception QueryExpressionError msg_no_expression))).
  { intros s Hs. destruct (logical_operator_run c s Hop) as (caller & token & _ & ->).
    now rewrite Hs. }
  split; [apply Hnone|]. split; [now apply Hnone|]. split; [now apply Hnone|].
  intros Hop' Hok. apply Hnone.
  destruct (logical_operator_run c' self Hop') as (caller & token & _ & Hrun).
  unfold eval, exec in *. rewrite Hrun in *.
  destruct (truthy (c_oper self)); [reflexivity | discriminate].
Qed.

(** An instance for X4: [OR()] right after [field('a').is_empty().AND()]. *)
Lemma logical_operator_needs_condition_witness :
  raised (eval (invoke Call_OR)
            (exec (invoke Call_AND)
               (exec (invoke Call_is_empty) (exec (field "a") __init__)))) =
    Some QueryExpressionError
  /\ raised (eval (invoke Call_NQ) __init__) = Some QueryExpressionError.
Proof.
  destruct (logical_operator_needs_condition Call_OR Call_AND "a"
              (exec (invoke Call_is_empty) (exec (field "a") __init__)) eq_refl)
    as (_ & _ & _ & H).
  destruct (logical_operator_needs_condition Call_NQ Call_AND "a" __init__ eq_refl)
    as (_ & H0 & _).
  split.
  - unfold eval. rewrite H; reflexivity.
  - unfold eval. now rewrite H0.
Defined.

(** X5: right after a condition call that returned, each logical operator
    returns: it appends exactly its token ([^] for [AND], [^OR] for [OR],
    [^NQ] for [NQ]) behind the tokens so far, clears the current field and
    the pending condition, and records its own name in [l_oper]. *)
Theorem logical_operator_after_condition (k : call) (self : QueryBuilder)
    (Hk : is_condition k = true)
    (Hok : eval (invoke k) self = Return tt) :
  AND (exec (invoke k) self) =
    ({| _query := _query (exec (invoke k) self) ++ ["^"]; current_field := None;
        c_oper := None; l_oper := Some "AND" |}, Return tt)
  /\ OR (exec (invoke k) self) =
    ({| _query := _query (exec (invoke k) self) ++ ["^OR"]; current_field := None;
        c_oper := None; l_oper := Some "OR" |}, Return tt)
  /\ NQ (exec (invoke k) self) =
    ({| _query := _query (exec (invoke k) self) ++ ["^NQ"]; current_field := None;
        c_oper := None; l_oper := Some "NQ" |}, Return tt).
Proof.
  destruct (condition_return k self Hk Hok) as (caller & token & -> & Hcaller & _).
  unfold AND, OR, NQ. rewrite !_add_logical_operator_unfold.
  unfold with_condition. simpl c_oper. rewrite Hcaller. repeat split.
Qed.

(** An instance for X5: [OR()] after [field('a').contains('x')]. *)
Lemma logical_operator_after_condition_witness :
  eval (invoke (Call_contains (VStr "x"))) (exec (field "a") __init__) = Return tt
  /\ _query (exec OR (exec (invoke (Call_contains (VStr "x"))) (exec (field "a") __init__))) =
       ["aLIKEx"; "^OR"].
Proof.
  split; [reflexivity|].
  destruct (logical_operator_after_condition (Call_contains (VStr "x"))
              (exec (field "a") __init__) eq_refl eq_refl) as (_ & H & _).
  unfold exec at 1. now rewrite H.
Defined.

(* ===================================================================== *)
(** ** Conditions without a field *)
(* ===================================================================== *)

Lemma condition_no_field (k : call) (self : QueryBuilder) :
  is_condition k = true ->
  truthy (current_field self) = false ->
  (exists e, invoke k self = (self, Raise e)) /\
  ((exists s, eval (invoke k) s = Return tt) ->
   invoke k self = (self, Raise (Exception QueryMissingField msg_missing_field))).
Proof.
  intros Hk Hf.
  destruct (condition_call_cases k Hk)
    as [(e & _ & Hrej) | (caller & operand & types & mark & _ & _ & Hrun)].
  - split; [exists e; apply Hrej|].
    intros (s & Hs). unfold eval in Hs. rewrite Hrej in Hs. discriminate.
  - destruct (Hrun self) as (operator & _ & Heq).
    rewrite Heq, _add_condition_unfold, Hf. simpl.
    split; [eexists; reflexivity | reflexivity].
Qed.

(** X6: while no field is selected, which is the case on a new builder and
    right after a logical operator that returned, every condition call raises
    and changes nothing; when its operand is one the method can accept, what
    it raises is [QueryMissingField].  A new field selection is needed after
    every logical operator. *)
Theorem condition_needs_field (c k : call) (self : QueryBuilder)
    (Hk : is_condition k = true) :
  (exists e, invoke k __init__ = (__init__, Raise e))
  /\ ((exists s, eval (invoke k) s = Return tt) ->
      invoke k __init__ = (__init__, Raise (Exception QueryMissingField msg_missing_field)))
  /\ (is_logical_operator c = true -> eval (invoke c) self = Return tt ->
      (exists e, invoke k (exec (invoke c) self) = (exec (invoke c) self, Raise e))
      /\ ((exists s, eval (invoke k) s = Return tt) ->
          invoke k (exec (invoke c) self) =
            (exec (invoke c) self, Raise (Exception QueryMissingField msg_missing_field)))).
Proof.
  destruct (condition_no_field k __init__ Hk eq_refl) as [H1 H2].
  split; [exact H1|]. split; [exact H2|].
  intros Hop Hok. apply condition_no_field; [assumption|].
  destruct (logical_operator_run c self Hop) as (caller & token & _ & Hrun).
  unfold eval, exec in *. rewrite Hrun in *.
  destruct (truthy (c_oper self)); [reflexivity | discriminate].
Qed.

(** An instance for X6: [equals('2')] right after
    [field('a').equals('1').AND()]. *)
Lemma condition_needs_field_witness :
  eval (invoke Call_AND) (exec (invoke (Call_equals (VStr "1"))) (exec (field "a") __init__)) =
    Return tt
  /\ raised (eval (invoke (Call_equals (VStr "2")))
               (exec (invoke Call_AND)
                  (exec (invoke (Call_equals (VStr "1"))) (exec (field "a") __init__)))) =
       Some QueryMissingField.
Proof.
  split; [reflexivity|].
  destruct (condition_needs_field Call_AND (Call_equals (VStr "2"))
              (exec (invoke (Call_equals (VStr "1"))) (exec (field "a") __init__)) eq_refl)
    as (_ & _ & H).
  destruct (H eq_refl eq_refl) as [_ Hmissing].
  unfold eval. rewrite Hmissing; [reflexivity|].
  exists (exec (field "a") __init__). reflexivity.
Defined.

(* ===================================================================== *)
(** ** The text-matching methods and [is_empty] *)
(* ===================================================================== *)

(** X7: with a field [f] selected and no condition pending, [starts_with],
    [ends_with], [contains] and [not_contains] append, for a text operand
    [v], the fragments [fSTARTSWITHv], [fENDSWITHv], [fLIKEv] and
    [fNOTLIKEv], and [is_empty] appends [fISEMPTY]; each records its own name
    as the pending condition.  For an operand that is not a [str] the four
    methods raise [QueryTypeError], with a message that names the method and
    the accepted type, and change nothing. *)
Theorem text_conditions (f v : string) (other : value) (self : QueryBuilder)
    (Hready : ready f self)
    (Hother : isinstance_str other = false) :
  starts_with (VStr v) self =
    (with_condition "starts_with" (f ++ "STARTSWITH" ++ v) self, Return tt)
  /\ ends_with (VStr v) self =
    (with_condition "ends_with" (f ++ "ENDSWITH" ++ v) self, Return tt)
  /\ contains (VStr v) self =
    (with_condition "contains" (f ++ "LIKE" ++ v) self, Return tt)
  /\ not_contains (VStr v) self =
    (with_condition "not_contains" (f ++ "NOTLIKE" ++ v) self, Return tt)
  /\ is_empty self = (with_condition "is_empty" (f ++ "ISEMPTY") self, Return tt)
  /\ starts_with other self =
    (self, Raise (Exception QueryTypeError
       "Invalid type passed to starts_with() , expected: [<class 'str'>]"))
  /\ ends_with other self =
    (self, Raise (Exception QueryTypeError
       "Invalid type passed to ends_with() , expected: [<class 'str'>]"))
  /\ contains other self =
    (self, Raise (Exception QueryTypeError
       "Invalid type passed to contains() , expected: [<class 'str'>]"))
  /\ not_contains other self =
    (self, Raise (Exception QueryTypeError
       "Invalid type passed to not_contains() , expected: [<class 'str'>]")).
Proof.
  assert (Hbad : type_in other [class_str] = false)
    by (destruct other; try discriminate Hother; reflexivity).
  pose proof Hready as (_ & Hset & _).
  unfold starts_with, ends_with, contains, not_contains, is_empty.
  rewrite !(ready_add_condition _ _ _ _ f) by (assumption || reflexivity).
  rewrite !_add_condition_unfold, Hset, Hbad. cbn [negb str].
  now rewrite append_empty_r.
Qed.

(** An instance for X7: after [field('name')] on a new builder. *)
Lemma text_conditions_witness :
  ready "name" (exec (field "name") __init__)
  /\ _query (exec (contains (VStr "foo")) (exec (field "name") __init__)) = ["nameLIKEfoo"]
  /\ raised (eval (contains (VInt 1)) (exec (field "name") __init__)) = Some QueryTypeError.
Proof.
  assert (Hready : ready "name" (exec (field "name") __init__)) by (repeat split).
  split; [exact Hready|].
  destruct (text_conditions "name" "foo" (VInt 1) (exec (field "name") __init__)
              Hready eq_refl)
    as (_ & _ & Hlike & _ & _ & _ & _ & Hbad & _).
  split; [unfold exec at 1 | unfold eval]; [now rewrite Hlike | now rewrite Hbad].
Defined.

(* ===================================================================== *)
(** ** The order of the checks *)
(* ===================================================================== *)

(** X8: the order in which a call reports what is wrong.  For the four
    text-matching methods given an operand that is not a [str], a missing
    field is reported first ([QueryMissingField]); with a field selected the
    wrong type is reported ([QueryTypeError]), whether or not a condition is
    pending.  The methods that look at their operand themselves report
    [QueryTypeError] before anything else, also on a builder with no field
    selected: [equals] and [not_equals] for an operand that is neither [str]
    nor [list], [greater_than] and [less_than] for a text, [between] for a
    text as its first argument, whatever the second. *)
Theorem checks_in_order (m : value -> M unit) (other second : value) (t : string)
    (self : QueryBuilder)
    (Hm : In m [starts_with; ends_with; contains; not_contains])
    (Hother : isinstance_str other = false) :
  (truthy (current_field self) = false ->
     raised (eval (m other) self) = Some QueryMissingField)
  /\ (truthy (current_field self) = true ->
      raised (eval (m other) self) = Some QueryTypeError)
  /\ (isinstance_list other = false ->
      raised (eval (equals other) self) = Some QueryTypeError
      /\ raised (eval (not_equals other) self) = Some QueryTypeError)
  /\ raised (eval (greater_than (VStr t)) self) = Some QueryTypeError
  /\ raised (eval (less_than (VStr t)) self) = Some QueryTypeError
  /\ raised (eval (between (VStr t) second) self) = Some QueryTypeError.
Proof.
  assert (Hbad : type_in other [class_str] = false)
    by (destruct other; try discriminate Hother; reflexivity).
  split; [|split; [|split; [|split; [|split]]]]; try reflexivity.
  - intro Hf. simpl in Hm.
    destruct Hm as [<- | [<- | [<- | [<- | []]]]];
      unfold eval, starts_with, ends_with, contains, not_contains;
      now rewrite _add_condition_unfold, Hf.
  - intro Hf. simpl in Hm.
    destruct Hm as [<- | [<- | [<- | [<- | []]]]];
      unfold eval, starts_with, ends_with, contains, not_contains;
      now rewrite _add_condition_unfold, Hf, Hbad.
  - intro Hlist. destruct other; try discriminate; split; reflexivity.
Qed.

(** An instance for X8: [contains(5)] on a new builder and after
    [field('a').is_empty()]. *)
Lemma checks_in_order_witness :
  raised (eval (contains (VInt 5)) __init__) = Some QueryMissingField
  /\ raised (eval (contains (VInt 5)) (exec (chain [Call_field "a"; Call_is_empty]) __init__)) =
       Some QueryTypeError.
Proof.
  assert (Hin : In contains [starts_with; ends_with; contains; not_contains])
    by (simpl; tauto).
  destruct (checks_in_order contains (VInt 5) (VStr "y") "x" __init__ Hin eq_refl)
    as (H1 & _).
  destruct (checks_in_order contains (VInt 5) (VStr "y") "x"
              (exec (chain [Call_field "a"; Call_is_empty]) __init__) Hin eq_refl)
    as (_ & H2 & _).
  split; [apply H1 | apply H2]; reflexivity.
Defined.

(* ===================================================================== *)
(** ** Operands at the edges *)
(* ===================================================================== *)

(** X9: with a field [f] selected and no condition pending, [greater_than]
    and [less_than] raise [QueryTypeError] and change nothing for every
    operand whose class is not exactly [int] and that is no date: a [bool] is
    rejected although it is an instance of [int].  [between] tests with
    [isinstance] instead and accepts booleans, which it prints as 1 and 0. *)
Theorem relational_operand_classes (f : string) (x : value) (b1 b2 : bool)
    (self : QueryBuilder)
    (Hready : ready f self)
    (Hint : type_of x <> class_int)
    (Hdate : hasattr_strftime x = false) :
  raised (eval (greater_than x) self) = Some QueryTypeError
  /\ exec (greater_than x) self = self
  /\ raised (eval (less_than x) self) = Some QueryTypeError
  /\ exec (less_than x) self = self
  /\ between (VBool b1) (VBool b2) self =
       (with_condition "between"
          (f ++ "BETWEEN" ++ (if b1 then "1" else "0") ++ "@" ++ (if b2 then "1" else "0"))
          self, Return tt).
Proof.
  pose proof Hready as (_ & Hset & _).
  assert (Hrel : forall caller operator,
            isinstance_str x = false ->
            _add_condition caller operator x [class_int; class_str] self =
              (self, Raise (Exception QueryTypeError
                 ("Invalid type passed to " ++ caller ++ "() , expected: " ++
                  str_types [class_int; class_str])))).
  { intros caller operator Hx. rewrite _add_condition_unfold, Hset.
    destruct x; try discriminate Hx; try reflexivity. now contradiction Hint. }
  split; [|split; [|split; [|split]]].
  1-4: destruct x; try discriminate Hdate; try (now contradiction Hint);
       unfold eval, exec, greater_than, less_than; try reflexivity;
       rewrite Hrel by reflexivity; reflexivity.
  destruct b1, b2; cbv beta iota delta [between as_int];
    now rewrite (ready_add_condition _ _ _ _ f).
Qed.

(** An instance for X9: [greater_than(True)] and [between(True, False)]
    after [field('active')] on a new builder. *)
Lemma relational_operand_classes_witness :
  ready "active" (exec (field "active") __init__)
  /\ raised (eval (greater_than (VBool true)) (exec (field "active") __init__)) =
       Some QueryTypeError
  /\ _query (exec (between (VBool true) (VBool false)) (exec (field "active") __init__)) =
       ["activeBETWEEN1@0"].
Proof.
  assert (Hready : ready "active" (exec (field "active") __init__)) by (repeat split).
  split; [exact Hready|].
  destruct (relational_operand_classes "active" (VBool true) true false
              (exec (field "active") __init__) Hready)
    as (Hgt & _ & _ & _ & Hbetween); [discriminate | reflexivity |].
  split; [exact Hgt | unfold exec at 1; now rewrite Hbetween].
Defined.

(** X10: with a field [f] selected and no condition pending, an empty list
    is accepted by [equals] and by [not_equals]: they append [fIN] and
    [fNOT IN] with nothing behind the operator. *)
Theorem empty_list_operand (f : string) (self : QueryBuilder)
    (Hready : ready f self) :
  equals (VList []) self = (with_condition "equals" (f ++ "IN") self, Return tt)
  /\ not_equals (VList []) self =
       (with_condition "not_equals" (f ++ "NOT IN") self, Return tt).
Proof.
  unfold equals, not_equals, join, lift. rewrite bind_unfold. cbn [str_items map String.concat].
  rewrite !(ready_add_condition _ _ _ _ f) by (assumption || reflexivity).
  cbn [str]. now rewrite !append_empty_r.
Qed.

(** An instance for X10: after [field('state')] on a new builder. *)
Lemma empty_list_operand_witness :
  ready "state" (exec (field "state") __init__)
  /\ build [Call_field "state"; Call_equals (VList [])] = Return "stateIN".
Proof.
  assert (Hready : ready "state" (exec (field "state") __init__)) by (repeat split).
  split; [exact Hready|].
  destruct (empty_list_operand "state" (exec (field "state") __init__) Hready) as (H & _).
  unfold build, eval. rewrite bind_unfold.
  change (chain [Call_field "state"; Call_equals (VList [])] __init__)
    with ((equals (VList []) ;; ret tt) (exec (field "state") __init__)).
  rewrite bind_unfold, H. reflexivity.
Defined.

(* ===================================================================== *)
(** ** The token sequence only grows *)
(* ===================================================================== *)

Lemma invoke_query_step (c : call) (self : QueryBuilder) :
  _query (exec (invoke c) self) = _query self
  \/ (eval (invoke c) self = Return tt
      /\ (is_condition c = true \/ is_logical_operator c = true)
      /\ exists t, _query (exec (invoke c) self) = List.app (_query self) [t]).
Proof.
  destruct (eval (invoke c) self) as [[]|e] eqn:Hres;
    [|left; now rewrite (invoke_raise _ _ _ Hres)].
  destruct (is_condition c) eqn:Hc.
  - right. destruct (condition_return c self Hc Hres) as (caller & token & -> & _).
    split; [reflexivity|]. split; [now left|]. now exists token.
  - destruct (is_logical_operator c) eqn:Hop.
    + right. destruct (logical_operator_run c self Hop) as (caller & token & _ & Hrun).
      unfold eval, exec in *. rewrite Hrun in *.
      destruct (truthy (c_oper self)); [|discriminate].
      split; [reflexivity|]. split; [now right|]. now exists token.
    + left. destruct c; try discriminate Hc; try discriminate Hop;
        [reflexivity | now rewrite invoke_str_exec].
Qed.

Lemma chain_unfold (c : call) (cs : list call) (self : QueryBuilder) :
  chain (c :: cs) self =
    match invoke c self with
    | (self', Return _) => chain cs self'
    | (self', Raise e) => (self', Raise e)
    end.
Proof. reflexivity. Qed.

Lemma chain_step (c : call) (cs : list call) (self : QueryBuilder) :
  eval (invoke c) self = Return tt ->
  chain (c :: cs) self = chain cs (exec (invoke c) self).
Proof.
  unfold eval, exec. rewrite chain_unfold.
  destruct (invoke c self) as [self' [[]|e]]; simpl; [reflexivity | discriminate].
Qed.

Lemma chain_step_exec (c : call) (cs : list call) (self : QueryBuilder) :
  eval (invoke c) self = Return tt ->
  exec (chain (c :: cs)) self = exec (chain cs) (exec (invoke c) self).
Proof. intro H. unfold exec at 1 2. now rewrite (chain_step _ _ _ H). Qed.

Lemma chain_step_eval (c : call) (cs : list call) (self : QueryBuilder) :
  eval (invoke c) self = Return tt ->
  eval (chain (c :: cs)) self = eval (chain cs) (exec (invoke c) self).
Proof. intro H. unfold eval at 1 2. now rewrite (chain_step _ _ _ H). Qed.

Lemma chain_raise (c : call) (cs : list call) (self : QueryBuilder) (e : exn) :
  eval (invoke c) self = Raise e ->
  chain (c :: cs) self = (self, Raise e).
Proof.
  intro Hres. pose proof (invoke_raise _ _ _ Hres) as Hexec.
  unfold eval, exec in *. rewrite chain_unfold.
  destruct (invoke c self) as [self' [[]|e']]; simpl in *; [discriminate|].
  now injection Hres as ->; subst.
Qed.

(** X11: the token sequence is append-only.  A call either leaves it as it
    is, or it returns and appends exactly one token behind the tokens so far,
    and only a condition or a logical operator does so: [field] and
    serialization never append.  Hence a fluent chain of [n] calls keeps the
    tokens it started from as a prefix and adds at most [n] tokens. *)
Theorem token_sequence_append_only (c : call) (cs : list call) (self : QueryBuilder) :
  (_query (exec (invoke c) self) = _query self
   \/ (eval (invoke c) self = Return tt
       /\ (is_condition c = true \/ is_logical_operator c = true)
       /\ exists t, _query (exec (invoke c) self) = List.app (_query self) [t]))
  /\ exists suffix,
       _query (exec (chain cs) self) = List.app (_query self) suffix
       /\ List.length suffix <= List.length cs.
Proof.
  split; [apply invoke_query_step|].
  revert self. induction cs as [|a cs IH]; intro self.
  - exists []. split; [symmetry; apply app_nil_r | apply Nat.le_refl].
  - destruct (eval (invoke a) self) as [[]|e] eqn:Hres.
    + rewrite (chain_step_exec _ _ _ Hres).
      destruct (IH (exec (invoke a) self)) as (suffix & Hq & Hlen).
      rewrite Hq.
      destruct (invoke_query_step a self) as [-> | (_ & _ & t & ->)].
      * exists suffix. split; [reflexivity | simpl; lia].
      * exists (t :: suffix). split; [now rewrite <- app_assoc | simpl; lia].
    + unfold exec. rewrite (chain_raise _ _ _ _ Hres). exists [].
      split; [symmetry; apply app_nil_r | simpl; lia].
Qed.

(** X12: a fluent chain stops at the first call that raises one of the
    builder's own errors ([QueryEmpty], [QueryExpressionError],
    [QueryMissingField], [QueryMultipleExpressions], [QueryTypeError]) or the
    [TypeError] of [str.join], these being all that [exn] holds; the builder
    is then as the calls before it left it: the outcome is that call's
    exception, the failing call and the calls behind it add nothing. *)
Theorem chain_stops_at_first_raise (cs1 cs2 : list call) (c : call) (e : exn)
    (self : QueryBuilder)
    (Hok : eval (chain cs1) self = Return tt)
    (Hraise : eval (invoke c) (exec (chain cs1) self) = Raise e)
    (Hclass : In (exn_cls e)
                [QueryEmpty; QueryExpressionError; QueryMissingField;
                 QueryMultipleExpressions; QueryTypeError; TypeError]) :
  chain (cs1 ++ c :: cs2) self = (exec (chain cs1) self, Raise e).
Proof.
  revert self Hok Hraise. induction cs1 as [|a cs1 IH]; intros self Hok Hraise.
  - simpl app. now apply chain_raise.
  - destruct (eval (invoke a) self) as [[]|e'] eqn:Ha.
    + simpl app. rewrite (chain_step _ _ _ Ha), (chain_step_exec _ _ _ Ha).
      rewrite (chain_step_eval _ _ _ Ha) in Hok.
      rewrite (chain_step_exec _ _ _ Ha) in Hraise.
      now apply IH.
    + unfold eval in Hok. rewrite (chain_raise _ _ _ _ Ha) in Hok. discriminate.
Qed.

(** An instance for X12: in
    [field('a').is_empty().contains('x').AND().field('b')] the third call
    raises; the builder keeps the single token [aISEMPTY]. *)
Lemma chain_stops_at_first_raise_witness :
  eval (chain [Call_field "a"; Call_is_empty]) __init__ = Return tt
  /\ eval (invoke (Call_contains (VStr "x")))
       (exec (chain [Call_field "a"; Call_is_empty]) __init__) =
     Raise (Exception QueryMultipleExpressions msg_multiple)
  /\ raised (eval (chain [Call_field "a"; Call_is_empty; Call_contains (VStr "x");
                          Call_AND; Call_field "b"]) __init__) =
       Some QueryMultipleExpressions
  /\ _query (exec (chain [Call_field "a"; Call_is_empty; Call_contains (VStr "x");
                          Call_AND; Call_field "b"]) __init__) = ["aISEMPTY"].
Proof.
  split; [reflexivity|]. split; [reflexivity|].
  pose proof (chain_stops_at_first_raise [Call_field "a"; Call_is_empty]
                [Call_AND; Call_field "b"] (Call_contains (VStr "x"))
                (Exception QueryMultipleExpressions msg_multiple) __init__
                eq_refl eq_refl
                (or_intror (or_intror (or_intror (or_introl eq_refl))))) as H.
  simpl app in H. unfold eval, exec at 1. rewrite H. split; reflexivity.
Defined.

(* ===================================================================== *)
(** ** Extending a finished query *)
(* ===================================================================== *)

Lemma concat_snoc (q : list string) (t : string) :
  String.concat EmptyString (q ++ [t]) = String.concat EmptyString q ++ t.
Proof.
  induction q as [|a q IH]; [reflexivity|].
  destruct q as [|b q].
  - reflexivity.
  - change (String.concat EmptyString ((a :: b :: q) ++ [t]))
      with (a ++ String.concat EmptyString ((b :: q) ++ [t])).
    rewrite IH.
    change (String.concat EmptyString (a :: b :: q))
      with (a ++ String.concat EmptyString (b :: q)).
    now rewrite append_assoc.
Qed.

Lemma app_cons_not_nil_r (q : list string) (t : string) : List.app q [t] <> [].
Proof. destruct q; discriminate. Qed.

Lemma str_return (self : QueryBuilder) (f name : string) :
  _query self <> [] -> current_field self = Some f -> c_oper self = Some name ->
  eval __str__ self = Return (String.concat EmptyString (_query self)).
Proof.
  intros Hq Hf Hc. unfold eval. rewrite __str___unfold, Hf, Hc. cbn [snd].
  destruct (_query self); [contradiction | reflexivity].
Qed.

(** A condition call with an acceptable operand, made with the field [g]
    selected and no condition pending, returns and appends a fragment that
    begins with [g]. *)
Lemma condition_ready (k : call) (g : string) (self : QueryBuilder) :
  is_condition k = true ->
  (exists s, eval (invoke k) s = Return tt) ->
  ready g self ->
  exists caller rest,
    invoke k self = (with_condition caller (g ++ rest) self, Return tt).
Proof.
  intros Hk (s0 & Hok) Hready.
  destruct (condition_call_cases k Hk)
    as [(e & _ & Hrej) | (caller & operand & types & mark & _ & _ & Hrun)].
  - unfold eval in Hok. rewrite Hrej in Hok. discriminate.
  - destruct (Hrun s0) as (op0 & _ & Heq0).
    unfold eval in Hok. rewrite Heq0 in Hok.
    destruct (_add_condition_return _ _ _ _ _ Hok) as (_ & Ht & _).
    destruct (Hrun self) as (operator & _ & Heq).
    exists caller, (operator ++ str operand).
    rewrite Heq. now apply ready_add_condition.
Qed.

(** X13: a query that serializes to [s] is extended by a logical operator, a
    field selection and a condition: on a reachable builder whose
    serialization returns [s], the chain of [AND] (resp. [OR], [NQ]),
    [field(g)] with a non-empty [g] and a condition call with an acceptable
    operand returns, and serialization then yields [s], the operator token
    [^] (resp. [^OR], [^NQ]) and a fragment that begins with [g]; for
    [equals] with a text [v] the fragment is [g=v]. *)
Theorem extend_serialized_query (self : QueryBuilder) (s g v t : string) (c k : call)
    (Hreach : reachable self)
    (Hs : eval __str__ self = Return s)
    (Hc : In (c, t) operator_tokens)
    (Hg : g <> EmptyString)
    (Hk : is_condition k = true)
    (Hvalid : exists s0, eval (invoke k) s0 = Return tt) :
  (exists rest,
     eval (chain [c; Call_field g; k] ;; __str__) self = Return (s ++ t ++ g ++ rest))
  /\ eval (chain [c; Call_field g; Call_equals (VStr v)] ;; __str__) self =
       Return (s ++ t ++ g ++ "=" ++ v).
Proof.
  destruct (reachable_markers self Hreach) as (Hname & _ & _ & _).
  assert (Hpend : truthy (c_oper self) = true /\ s = String.concat EmptyString (_query self)).
  { unfold eval in Hs. rewrite __str___unfold in Hs. cbn [snd] in Hs.
    destruct (_query self); [discriminate|].
    destruct (current_field self); [|discriminate].
    destruct Hname as [Hn | Hn]; [rewrite Hn in Hs; discriminate|].
    split; [exact Hn|]. destruct (c_oper self); [|discriminate].
    now injection Hs as <-. }
  destruct Hpend as [Hpend ->].
  destruct (operator_token_run c t self Hc) as (name & _ & Hrun).
  rewrite Hpend in Hrun.
  set (self1 := {| _query := _query self ++ [t]; current_field := None;
                   c_oper := None; l_oper := Some name |}) in Hrun.
  assert (Hready : ready g (set_current_field (Some g) self1)).
  { split; [reflexivity|]. split; [now apply truthy_Some_iff | reflexivity]. }
  assert (Hgen : forall k' caller rest,
            invoke k' (set_current_field (Some g) self1) =
              (with_condition caller (g ++ rest) (set_current_field (Some g) self1),
               Return tt) ->
            eval (chain [c; Call_field g; k'] ;; __str__) self =
              Return (String.concat EmptyString (_query self) ++ t ++ g ++ rest)).
  { intros k' caller rest Hk'.
    unfold eval. rewrite bind_unfold, chain_unfold, Hrun, chain_unfold.
    change (invoke (Call_field g) self1) with (set_current_field (Some g) self1, Return tt).
    cbn iota. rewrite chain_unfold, Hk'. cbn iota beta.
    unfold chain, ret.
    change (snd (__str__ (with_condition caller (g ++ rest)
                            (set_current_field (Some g) self1))))
      with (eval __str__ (with_condition caller (g ++ rest)
                            (set_current_field (Some g) self1))).
    rewrite (str_return _ g caller) by (try reflexivity; apply app_cons_not_nil_r).
    unfold with_condition, query_append, set_c_oper, set_current_field, self1.
    cbn [_query current_field c_oper].
    now rewrite !concat_snoc, append_assoc. }
  split.
  - destruct (condition_ready k g _ Hk Hvalid Hready) as (caller & rest & Hrunk).
    exists rest. now apply (Hgen k caller rest).
  - apply (Hgen (Call_equals (VStr v)) "equals" ("=" ++ v)).
    simpl invoke. unfold equals. now apply ready_add_condition.
Qed.

(** An instance for X13: [priority=1] extended by
    [AND().field('state').not_equals('6')]. *)
Lemma extend_serialized_query_witness :
  eval __str__ (exec (chain [Call_field "priority"; Call_equals (VStr "1")]) __init__) =
    Return "priority=1"
  /\ eval (chain [Call_AND; Call_field "state"; Call_equals (VStr "6")] ;; __str__)
       (exec (chain [Call_field "priority"; Call_equals (VStr "1")]) __init__) =
     Return "priority=1^state=6".
Proof.
  split; [reflexivity|].
  destruct (extend_serialized_query
              (exec (chain [Call_field "priority"; Call_equals (VStr "1")]) __init__)
              "priority=1" "state" "6" "^" Call_AND (Call_equals (VStr "6")))
    as (_ & H).
  - change (exec (chain [Call_field "priority"; Call_equals (VStr "1")]) __init__)
      with (exec (invoke (Call_equals (VStr "1")))
              (exec (invoke (Call_field "priority")) __init__)).
    repeat apply reachable_call. apply reachable_init.
  - reflexivity.
  - simpl. tauto.
  - discriminate.
  - reflexivity.
  - exists (exec (field "a") __init__). reflexivity.
  - exact H.
Defined.

(* ===================================================================== *)
(** ** The marker [l_oper] is only written *)
(* ===================================================================== *)

Ltac settle_markers self :=
  unfold eval, exec;
  rewrite ?bind_unfold; cbn [get lift];
  rewrite ?_add_condition_unfold, ?_add_logical_operator_unfold, ?__str___unfold;
  cbn [set_l_oper current_field c_oper _query];
  destruct (truthy (current_field self)); cbn [negb];
  try match goal with
      | |- context [type_in ?x ?ts] => destruct (type_in x ts); cbn [negb]
      end;
  destruct (truthy (c_oper self)); cbn;
  repeat split; reflexivity.

(** X14: no call reads [l_oper]: with any other value in that attribute
    every call has the same outcome (the same returned value or the same
    exception) and leaves the same token sequence, current field and pending
    condition. *)
Theorem l_oper_never_read (c : call) (v : option string) (self : QueryBuilder) :
  eval (invoke c) (set_l_oper v self) = eval (invoke c) self
  /\ _query (exec (invoke c) (set_l_oper v self)) = _query (exec (invoke c) self)
  /\ current_field (exec (invoke c) (set_l_oper v self)) =
       current_field (exec (invoke c) self)
  /\ c_oper (exec (invoke c) (set_l_oper v self)) = c_oper (exec (invoke c) self).
Proof.
  destruct c as [ | | | f | | | x | x | x | x | | x | x | x | x | a b | ];
    simpl invoke.
  - unfold AND. settle_markers self.
  - unfold OR. settle_markers self.
  - unfold NQ. settle_markers self.
  - repeat split.
  - unfold order_descending. settle_markers self.
  - unfold order_ascending. settle_markers self.
  - unfold starts_with. settle_markers self.
  - unfold ends_with. settle_markers self.
  - unfold contains. settle_markers self.
  - unfold not_contains. settle_markers self.
  - unfold is_empty. settle_markers self.
  - destruct x; unfold equals; first [now repeat split | settle_markers self].
  - destruct x as [ | | | | items | | ]; unfold not_equals;
      try (first [now repeat split | settle_markers self]).
    unfold join. destruct (str_items 0 items);
      first [now repeat split | settle_markers self].
  - destruct x; unfold greater_than; first [now repeat split | settle_markers self].
  - destruct x; unfold less_than; first [now repeat split | settle_markers self].
  - destruct a as [ | [|] | ? | ? | ? | ? | ? ? ];
      destruct b as [ | [|] | ? | ? | ? | ? | ? ? ];
      cbv beta iota delta [between as_int];
      first [now repeat split | settle_markers self].
  - unfold eval, exec. rewrite !bind_unfold, !__str___unfold.
    cbn [set_l_oper current_field c_oper _query].
    destruct (_query self); [now repeat split|].
    destruct (current_field self); [|now repeat split].
    destruct (c_oper self); now repeat split.
Qed.

(* ===================================================================== *)
(** ** Operands are written as they are *)
(* ===================================================================== *)

(** X15: fragments are built by plain concatenation, with no escaping of the
    operand: for non-empty field names [f] and [g], [equals] with the text
    operand [v^g=w] serializes to the same query as the chain that selects
    [f], adds [equals(v)], then [AND()], selects [g] and adds [equals(w)].
    Serialization is therefore not injective: the query text does not tell
    the calls that built it. *)
Theorem operand_not_escaped (f g v w : string)
    (Hf : f <> EmptyString) (Hg : g <> EmptyString) :
  build [Call_field f; Call_equals (VStr (v ++ "^" ++ g ++ "=" ++ w))] =
    Return (f ++ "=" ++ v ++ "^" ++ g ++ "=" ++ w)
  /\ build [Call_field f; Call_equals (VStr v); Call_AND; Call_field g;
            Call_equals (VStr w)] =
       Return (f ++ "=" ++ v ++ "^" ++ g ++ "=" ++ w).
Proof.
  destruct f as [|a f]; [contradiction|]. destruct g as [|b g]; [contradiction|].
  split; [reflexivity|].
  unfold build, eval. cbn. f_equal. f_equal.
  now rewrite !append_assoc.
Qed.

(** An instance for X15: [a=1^b=2] built in two ways. *)
Lemma operand_not_escaped_witness :
  build [Call_field "a"; Call_equals (VStr "1^b=2")] = Return "a=1^b=2"
  /\ build [Call_field "a"; Call_equals (VStr "1"); Call_AND; Call_field "b";
            Call_equals (VStr "2")] = Return "a=1^b=2".
Proof.
  apply (operand_not_escaped "a" "b" "1" "2"); discriminate.
Defined.
